(** * Water-quality notebook: the evalscript and the request built around it

    The repository is one Jupyter notebook.  Its Python cells build a
    Sentinel Hub request and hand it to the SDK; the only non-trivial logic is
    the JavaScript evalscript (the Ulyssys Water Quality Viewer) carried in the
    string [custom_script].  This development embeds both:

    - [JS]: the fragment of JavaScript values and coercions the script relies
      on (numbers with NaN and infinities, [undefined], strings, arrays,
      objects, property access, [<], [===], [==] against a string literal);
    - [Evalscript]: the script's functions, one Rocq definition per
      JavaScript function, under the same names;
    - [Notebook]: the Python cells as computations that may raise and that
      record every call made to the SDK;
    - [Binary64]: [blend] and [getAlpha] once more, over binary64 numbers;
    - the modules named [...Facts]: what holds of them.

    Numbers come in two kinds.  In [JS] a finite number is an exact
    rational and zero carries no sign: that is enough to say which tests the
    script applies, which branch a call takes and what shape a result has.
    What the arithmetic of [blend] and [getAlpha] returns depends on the
    rounding of every operation, and is stated in [Binary64], over the
    binary64 numbers the script computes with. *)

From Stdlib Require Import QArith Qround Lqa Lia List String Bool ZArith.
From Stdlib Require Import DecimalString.
From Stdlib Require Import Qpower Qabs.
From Stdlib Require Floats.
From ExtLib Require Import Structures.Monad Structures.MonadState Structures.MonadExc.
From ExtLib Require Import Data.Monads.OptionMonad Data.Monads.StateMonad
  Data.Monads.EitherMonad.
Import ListNotations.
Import MonadNotation.
Local Open Scope monad_scope.
Set Warnings "-register-all".
Set Warnings "-inexact-float".

(* ===================================================================== *)
(** ** JavaScript numbers and values *)
(* ===================================================================== *)

Module JS.

(** A JavaScript number: a finite value, one of the two infinities, or NaN. *)
Inductive number : Type :=
| Fin (q : Q)
| PInf
| NInf
| NaN.

Coercion Fin : Q >-> number.

Definition neg (x : number) : number :=
  match x with
  | Fin q => Fin (- q)
  | PInf => NInf
  | NInf => PInf
  | NaN => NaN
  end.

Definition add (x y : number) : number :=
  match x, y with
  | NaN, _ | _, NaN => NaN
  | Fin a, Fin b => Fin (a + b)
  | PInf, NInf | NInf, PInf => NaN
  | PInf, _ | _, PInf => PInf
  | NInf, _ | _, NInf => NInf
  end.

Definition sub (x y : number) : number := add x (neg y).

(** An infinity scaled by the sign of a finite factor; [0 * Infinity] is NaN. *)
Definition scale_inf (inf : number) (q : Q) : number :=
  match q ?= 0 with
  | Eq => NaN
  | Gt => inf
  | Lt => neg inf
  end.

Definition mul (x y : number) : number :=
  match x, y with
  | NaN, _ | _, NaN => NaN
  | Fin a, Fin b => Fin (a * b)
  | Fin a, inf => scale_inf inf a
  | inf, Fin b => scale_inf inf b
  | PInf, PInf | NInf, NInf => PInf
  | PInf, NInf | NInf, PInf => NInf
  end.

(** Division.  A finite number over zero is an infinity of the numerator's
    sign (zero is taken as [+0]), and [0/0] is NaN. *)
Definition div (x y : number) : number :=
  match x, y with
  | NaN, _ | _, NaN => NaN
  | Fin a, Fin b =>
      match b ?= 0 with
      | Eq => match a ?= 0 with Eq => NaN | Gt => PInf | Lt => NInf end
      | _ => Fin (a / b)
      end
  | Fin _, _ => Fin 0
  | inf, Fin b => match b ?= 0 with Lt => neg inf | _ => inf end
  | _, _ => NaN
  end.

(** Ordering of two numbers; [None] as soon as one of them is NaN, which is
    why every relational operator answers [false] on NaN. *)
Definition cmp (x y : number) : option comparison :=
  match x, y with
  | NaN, _ | _, NaN => None
  | Fin a, Fin b => Some (a ?= b)
  | PInf, PInf | NInf, NInf => Some Eq
  | NInf, _ | _, PInf => Some Lt
  | PInf, _ | _, NInf => Some Gt
  end.

Definition lt (x y : number) : bool :=
  match cmp x y with Some Lt => true | _ => false end.
Definition gt (x y : number) : bool :=
  match cmp x y with Some Gt => true | _ => false end.
Definition le (x y : number) : bool :=
  match cmp x y with Some Lt | Some Eq => true | _ => false end.
Definition ge (x y : number) : bool :=
  match cmp x y with Some Gt | Some Eq => true | _ => false end.
(** [x === y] on numbers: NaN differs from everything, itself included. *)
Definition eqn (x y : number) : bool :=
  match cmp x y with Some Eq => true | _ => false end.

(** Two numbers denote the same value. *)
Definition same (x y : number) : Prop :=
  match x, y with
  | Fin a, Fin b => a == b
  | PInf, PInf | NInf, NInf | NaN, NaN => True
  | _, _ => False
  end.

(** [parseInt] applied to a number: the integer part, truncated towards
    zero.  (JavaScript goes through the decimal string of the number, which
    agrees with truncation for magnitudes between 1e-6 and 1e21, the range of
    an opacity times one hundred.) *)
Definition parseInt (x : number) : number :=
  match x with
  | Fin q => Fin (inject_Z (if Qle_bool 0 q then Qfloor q else Qceiling q))
  | _ => NaN
  end.

Declare Scope js_scope.
Delimit Scope js_scope with js.
Bind Scope js_scope with number.
Infix "+" := add : js_scope.
Infix "-" := sub : js_scope.
Infix "*" := mul : js_scope.
Infix "/" := div : js_scope.
Infix "<" := lt : js_scope.
Infix ">" := gt : js_scope.
Infix "<=" := le : js_scope.
Infix ">=" := ge : js_scope.
Infix "===" := eqn (at level 70, no associativity) : js_scope.

(** A JavaScript value, as far as the script meets them. *)
Inductive val : Type :=
| Undefined
| Num (n : number)
| Str (s : string)
| Arr (xs : list val)
| Obj (fields : list (string * val)).

(** *** Evaluation

    Evaluation either yields a value or stops.  It runs in the [option]
    monad, where [None] stands for a thrown TypeError (a property read on
    [undefined]) or for a step that needs a coercion left out of this
    fragment (the conversion of a string, an array or an object to a
    number). *)

(** The value of a field of an object literal; a field that is not there
    reads as [undefined]. *)
Fixpoint lookup (fields : list (string * val)) (name : string) : val :=
  match fields with
  | [] => Undefined
  | (k, v) :: rest => if String.eqb k name then v else lookup rest name
  end.

Definition of_nat (n : nat) : number := Fin (inject_Z (Z.of_nat n)).

(** [v.name] for a property name that is not an array index.  Reading a
    property of [undefined] throws; a number has no property of its own, a
    string and an array have their [length]. *)
Definition get (v : val) (name : string) : option val :=
  match v with
  | Undefined => None
  | Num _ => Some Undefined
  | Str s =>
      Some (if String.eqb name "length" then Num (of_nat (String.length s))
            else Undefined)
  | Arr xs =>
      Some (if String.eqb name "length" then Num (of_nat (List.length xs))
            else Undefined)
  | Obj fields => Some (lookup fields name)
  end.

(** [v[i]] for an index [i]. *)
Definition at_index (v : val) (i : nat) : option val :=
  match v with
  | Undefined => None
  | Num _ => Some Undefined
  | Str s =>
      Some (match String.get i s with
            | Some c => Str (String c EmptyString)
            | None => Undefined
            end)
  | Arr xs => Some (nth i xs Undefined)
  | Obj fields =>
      Some (lookup fields (NilEmpty.string_of_uint (Nat.to_uint i)))
  end.

(** ToNumber on the values whose conversion is modelled. *)
Definition ToNumber (v : val) : option number :=
  match v with
  | Undefined => Some NaN
  | Num n => Some n
  | _ => None
  end.

(** A property or element read where a number is expected: a missing one
    is [undefined], hence NaN. *)
Definition field (v : val) (name : string) : option number :=
  x <- get v name ;; ToNumber x.

(** [a < b] on values, through ToNumber. *)
Definition lt_val (a b : val) : option bool :=
  x <- ToNumber a ;; y <- ToNumber b ;; ret (lt x y).

(** [v === n] for a number [n]: no coercion, so only a number can be equal. *)
Definition strict_eq_number (v : val) (n : number) : bool :=
  match v with
  | Num x => eqn x n
  | _ => false
  end.

(** [v == "name"] against a string literal.  A string compares by
    content and [undefined] equals no string; the other cases convert one
    side first and are left out. *)
Definition loose_eq_string (v : val) (name : string) : option bool :=
  match v with
  | Str s => Some (String.eqb s name)
  | Undefined => Some false
  | _ => None
  end.

(** [a && b] on conditions: [b] is evaluated only when [a] holds. *)
Definition and_then (a b : option bool) : option bool :=
  x <- a ;; if x : bool then b else ret false.

(** The number of iterations of [for (let i = 0; i < len; i++)] whose body
    does not leave early: none when [len] converts to NaN, to a negative
    number or to zero.  An infinite bound is left out. *)
Definition loop_bound (len : val) : option nat :=
  n <- ToNumber len ;;
  match n with
  | Fin q => Some (Z.to_nat (Qceiling q))
  | NaN | NInf => Some O
  | PInf => None
  end.

(** [a || b] on conditions: [b] is evaluated only when [a] fails. *)
Definition or_else (a b : option bool) : option bool :=
  x <- a ;; if x : bool then ret true else b.

(** An array of numbers, and an array of strings. *)
Definition numbers (l : list number) : val := Arr (map Num l).
Definition strings (l : list string) : val := Arr (map Str l).

(** [l.map(function (x, index) {...})], the callback receiving the index. *)
Fixpoint map_index {A B : Type} (f : A -> nat -> B) (index : nat) (l : list A)
  : list B :=
  match l with
  | [] => []
  | x :: rest => f x index :: map_index f (S index) rest
  end.

End JS.

(* ===================================================================== *)
(** ** The evalscript (the text of [custom_script]) *)
(* ===================================================================== *)

Module Evalscript.
Import JS.
Local Open Scope string_scope.
Local Open Scope Q_scope.
Local Open Scope js_scope.

(** One pixel of the ten input bands declared by [setup]; the platform
    delivers a finite reflectance for each. *)
Record Sample : Type := {
  B02 : Q; B03 : Q; B04 : Q; B05 : Q; B06 : Q;
  B07 : Q; B08 : Q; B8A : Q; B09 : Q; B11 : Q
}.

(** The sample as the JavaScript object the script receives. *)
Definition sample_obj (s : Sample) : val :=
  Obj [("B02", Num s.(B02)); ("B03", Num s.(B03)); ("B04", Num s.(B04));
       ("B05", Num s.(B05)); ("B06", Num s.(B06)); ("B07", Num s.(B07));
       ("B08", Num s.(B08)); ("B8A", Num s.(B8A)); ("B09", Num s.(B09));
       ("B11", Num s.(B11))].

(** The values a setting of [PARAMS] may take. *)
Inductive ChlIndex := chl_default | chl_rlh | chl_mci.
Inductive TssIndex := tss_default | tss_b05.
Inductive Foreground := fg_default | fg_natural | fg_rgb (color : list number).
Inductive Background :=
  bg_default | bg_natural | bg_black | bg_white | bg_rgb (color : list number).

Module Params.
(** [chlIndex] and [tssIndex] are [None] when the setting is [null]. *)
Record t : Type := {
  chlIndex : option ChlIndex;
  tssIndex : option TssIndex;
  watermaskIndices : list string;
  chlMin : Q;
  chlMax : Q;
  tssMin : Q;
  tssMax : Q;
  waterMax : Q;
  cloudMax : Q;
  foreground : Foreground;
  foregroundOpacity : Q;
  background : Background;
  backgroundOpacity : Q
}.
End Params.

Definition PARAMS : Params.t := {|
  Params.chlIndex := Some chl_default;
  Params.tssIndex := Some tss_default;
  Params.watermaskIndices := ["ndwi"; "hol"];
  Params.chlMin := -0.005;
  Params.chlMax := 0.05;
  Params.tssMin := 0.075;
  Params.tssMax := 0.185;
  Params.waterMax := 0;
  Params.cloudMax := 0.02;
  Params.foreground := fg_default;
  Params.foregroundOpacity := 1;
  Params.background := bg_default;
  Params.backgroundOpacity := 1.0
|}.

Record ChlIndices : Type := { rlh : number; mci : number }.
Record TssIndices : Type := { b05 : number }.
Record WatermaskIndices : Type := { ndwi : number }.
Module Indices.
Record t : Type := {
  natural : list number;
  chl : ChlIndices;
  tss : TssIndices;
  watermask : WatermaskIndices
}.
End Indices.

Definition getIndices (sample : Sample) : Indices.t := {|
  Indices.natural := [2.5 * sample.(B04); 2.5 * sample.(B03); 2.5 * sample.(B02)];
  Indices.chl := {|
    rlh := sample.(B05) - sample.(B04)
           - (sample.(B07) - sample.(B04) * ((0.705 - 0.665) * 1000.0))
             / ((0.783 - 0.665) * 1000.0);
    mci := sample.(B05)
           - ((0.74 - 0.705) / (0.74 - 0.665)) * sample.(B04)
           - (1.0 - (0.74 - 0.705) / (0.74 - 0.665)) * sample.(B06)
  |};
  Indices.tss := {| b05 := sample.(B05) |};
  Indices.watermask := {|
    ndwi := (sample.(B03) - sample.(B08)) / (sample.(B03) + sample.(B08))
  |}
|}.

(** [indices.watermask] as the object handed around. *)
Definition watermask_obj (w : WatermaskIndices) : val :=
  Obj [("ndwi", Num w.(ndwi))].

Definition blend (layer1 layer2 : list number) (opacity1 opacity2 : number)
  : list number :=
  map_index
    (fun num index => (num / 100) * opacity1 + (nth index layer2 NaN / 100) * opacity2)
    0%nat layer1.

Definition getAlpha (index min max : number) : number :=
  if min + (max - min) / 2 < index then 100
  else if index <= min then 0
  else if index >= max then 1
  else 100 * ((index - min / 2) / (max - min)).

(** [getEval(s, sample)] is [eval(s)], and [eval] gives back an argument that
    is not a string as it is.  The script only passes it numbers and arrays
    it has already computed, never source text, so it is the identity; a
    string met in such a position stops the comparison that follows, in
    [ToNumber]. *)
Definition getEval {A : Type} (s : A) : A := s.

Definition isPureWater (sample : val) : option bool :=
  and_then (B03 <- field sample "B03" ;; ret (B03 < 0.319))
 (and_then (B8A <- field sample "B8A" ;; ret (B8A < 0.166))
 (and_then (B03 <- field sample "B03" ;; B07 <- field sample "B07" ;;
            ret (B03 - B07 >= 0.027))
           (B09 <- field sample "B09" ;; B11 <- field sample "B11" ;;
            ret (B09 - B11 < 0.021)))).

Definition isCloud (sample limit : val) : option bool :=
  B02 <- field sample "B02" ;;
  let bRatio := (B02 - 0.175) / (0.39 - 0.175) in
  or_else (ret (bRatio > 1))
 (and_then (ret (bRatio > 0))
           (B04 <- field sample "B04" ;; B06 <- field sample "B06" ;;
            l <- ToNumber limit ;;
            ret ((B04 - B06) / (B04 + B06) > l))).

(** The body of the [for] loop of [isWater], from index [i] on, for [n] more
    iterations: [ret false] is [isItWater = false; break], and running out of
    iterations returns [isItWater], still [true]. *)
Fixpoint isWater_loop (n i : nat)
  (sample availableWatermaskIndices selectedWatermaskIndices waterMax cloudMax : val)
  : option bool :=
  match n with
  | O => ret true
  | S n' =>
      wm <- at_index selectedWatermaskIndices i ;;
      c1 <- and_then (loose_eq_string wm "ndwi")
              (x <- get availableWatermaskIndices "ndwi" ;;
               lt_val (getEval x) waterMax) ;;
      if c1 : bool then ret false else
      c2 <- and_then (loose_eq_string wm "hol")
              (p <- isPureWater sample ;; ret (negb p)) ;;
      if c2 : bool then ret false else
      c3 <- and_then (loose_eq_string wm "bcy") (isCloud sample cloudMax) ;;
      if c3 : bool then ret false else
      isWater_loop n' (S i) sample availableWatermaskIndices
        selectedWatermaskIndices waterMax cloudMax
  end.

(** [isWater]: [true] at once for an empty selection; otherwise the loop
    over the selected indices, which stops at the first test that fails. *)
Definition isWater
  (sample availableWatermaskIndices selectedWatermaskIndices waterMax cloudMax : val)
  : option bool :=
  len <- get selectedWatermaskIndices "length" ;;
  if strict_eq_number len 0 then ret true
  else
    n <- loop_bound len ;;
    isWater_loop n 0 sample availableWatermaskIndices
      selectedWatermaskIndices waterMax cloudMax.

Definition getStaticColor (colorArray : list number) : list number :=
  [nth 0 colorArray NaN / 255; nth 1 colorArray NaN / 255; nth 2 colorArray NaN / 255].

Definition getBackground (background : Background) (naturalIndex : list number)
  (opacity : number) : list number :=
  let alpha := parseInt (opacity * 100) in
  let '(backgroundLayer, isRgb) :=
    match background with
    | bg_default | bg_natural => (getEval naturalIndex, true)
    | bg_black => ([Fin 0; Fin 0; Fin 0], false)
    | bg_white => ([Fin 1; Fin 1; Fin 1], false)
    | bg_rgb color => (getStaticColor color, false)
    end in
  if isRgb || (opacity === 1) then backgroundLayer
  else blend backgroundLayer (getEval naturalIndex) alpha (100 - alpha).

(** The characters of the string ['default'] are no numbers, so
    [getStaticColor] would turn it into three NaN; [getValue] never passes
    it. *)
Definition getForeground (foreground : Foreground)
  (backgroundLayer naturalIndex : list number) (opacity : number) : list number :=
  let alpha := parseInt (opacity * 100) in
  let layer :=
    match foreground with
    | fg_natural => getEval naturalIndex
    | fg_rgb color => getStaticColor color
    | fg_default => [NaN; NaN; NaN]
    end in
  if opacity === 1 then layer else blend layer backgroundLayer alpha (100 - alpha).

(** An instance of the platform's [colorBlend] to run the script with (it
    is no part of the notebook): linear interpolation between the colours of
    the two limits around the value, and the first or last colour outside the
    limits. *)
Definition mix (c0 c1 : list number) (t : number) : list number :=
  map_index (fun x i => x + (nth i c1 NaN - x) * t) 0%nat c0.

Fixpoint ramp_from (value lo : number) (c_lo : list number)
  (limits : list number) (colors : list (list number)) : list number :=
  match limits, colors with
  | hi :: limits', c_hi :: colors' =>
      if value <= hi then mix c_lo c_hi ((value - lo) / (hi - lo))
      else ramp_from value hi c_hi limits' colors'
  | _, _ => c_lo
  end.

Definition linear_ramp (value : number) (limits : list number)
  (colors : list (list number)) : list number :=
  match limits, colors with
  | lo :: limits', c_lo :: colors' =>
      if value <= lo then c_lo else ramp_from value lo c_lo limits' colors'
  | _, _ => []
  end.

(** The two palettes of [getColors]. *)
Definition chl_palette : list (list number) := [
  [Fin 0.0034; Fin 0.0142; Fin 0.163];    (* #01042A (almost black blue) *)
  [Fin 0; Fin 0.416; Fin 0.306];          (* #006A4E (bangladesh green) *)
  [Fin 0.486; Fin 0.98; Fin 0];           (* #7CFA00 (dark saturated chartreuse) *)
  [Fin 0.9465; Fin 0.8431; Fin 0.1048];   (* #F1D71B (light washed yellow) *)
  [Fin 1; Fin 0; Fin 0]                   (* #FF0000 (red) *)
].

Definition tss_palette : list (list number) := [
  [Fin 0.961; Fin 0.871; Fin 0.702];      (* #F5DEB3 (wheat) *)
  [Fin 0.396; Fin 0.263; Fin 0.129]       (* #654321 (dark brown) *)
].

Section Script.

(** [colorBlend(value, limits, colors)] is a utility function of the
    platform's evaluator, not part of the script. *)
Variable colorBlend : number -> list number -> list (list number) -> list number.

(** [colors] stays [undefined], here [None], for a type other than
    ['chl'] and ['tss']. *)
Definition getColors (type : string) (index min max : number)
  : option (list number) :=
  if String.eqb type "chl" then
    let palette := chl_palette in
    Some (colorBlend index
            [min; min + (max - min) / 3; (min + max) / 2; max - (max - min) / 3; max]
            palette)
  else if String.eqb type "tss" then
    let palette := tss_palette in
    Some (colorBlend index [min; max] palette)
  else None.

(** What [getValue] returns: the bare layer (an array) on its two early
    returns, an object with the three fields otherwise.  A field left
    unassigned ([chlIndex] or [tssIndex] under a [null] setting) is
    [undefined]. *)
Definition layer_val (layer : list number) : val := numbers layer.

Definition index_val (index : option number) : val :=
  match index with
  | Some x => Num x
  | None => Undefined
  end.

Definition result_val (rgb_value : list number) (chl_index sed_index : option number)
  : val :=
  Obj [("rgb_value", numbers rgb_value);
       ("chl_index", index_val chl_index);
       ("sed_index", index_val sed_index)].

(** [isWater] as [getValue] calls it, with four arguments for the five
    parameters: [indices.watermask] lands in [sample],
    [params.watermaskIndices] in [availableWatermaskIndices],
    [params.waterMax] in [selectedWatermaskIndices], [params.cloudMax] in
    [waterMax], and [cloudMax] is left [undefined]. *)
Definition isWater_call (params : Params.t) (indices : Indices.t) : option bool :=
  isWater (watermask_obj indices.(Indices.watermask))
          (strings params.(Params.watermaskIndices))
          (Num params.(Params.waterMax))
          (Num params.(Params.cloudMax))
          Undefined.

(** [getValue].  The script declares [chlIndex], [chlLayer], [tssIndex],
    [tssLayer] and [tssAlpha] unassigned and sets them under [chl !== null]
    and [tss !== null]; here [chlPart] and [tssPart] hold them, [None] while
    unassigned. *)
Definition getValue (params : Params.t) (sample : Sample) : option val :=
  let chl := params.(Params.chlIndex) in
  let tss := params.(Params.tssIndex) in
  let background := params.(Params.background) in
  let foreground := params.(Params.foreground) in
  let foregroundOpacity : number := params.(Params.foregroundOpacity) in
  let indices := getIndices sample in
  let backgroundLayer :=
    getBackground background indices.(Indices.natural) params.(Params.backgroundOpacity) in
  water <- isWater_call params indices ;;
  if negb water then ret (layer_val backgroundLayer)
  else
  match foreground with
  | fg_natural | fg_rgb _ =>
      ret (layer_val (getForeground foreground backgroundLayer indices.(Indices.natural)
                        foregroundOpacity))
  | fg_default =>
      (* the chlorophyll layer, if needed: chlIndex and chlLayer *)
      chlPart <-
        match chl with
        | Some c =>
            let chlIndex :=
              match c with
              | chl_default | chl_mci => getEval indices.(Indices.chl).(mci)
              | chl_rlh => getEval indices.(Indices.chl).(rlh)
              end in
            chlLayer <- getColors "chl" chlIndex params.(Params.chlMin)
                          params.(Params.chlMax) ;;
            ret (Some (chlIndex, chlLayer))
        | None => ret None
        end ;;
      (* the sediment layer, if needed: tssIndex, tssLayer and tssAlpha *)
      tssPart <-
        match tss with
        | Some c =>
            let tssIndex :=
              match c with
              | tss_default | tss_b05 => getEval indices.(Indices.tss).(b05)
              end in
            tssLayer <- getColors "tss" tssIndex params.(Params.tssMin)
                          params.(Params.tssMax) ;;
            let tssAlpha :=
              getAlpha tssIndex params.(Params.tssMin) params.(Params.tssMax) in
            ret (Some (tssIndex, tssLayer, tssAlpha))
        | None => ret None
        end ;;
      let value :=
        match chlPart, tssPart with
        | Some (_, chlLayer), Some (_, tssLayer, tssAlpha) =>
            blend tssLayer chlLayer tssAlpha (100 - tssAlpha)
        | Some (_, chlLayer), None => chlLayer
        | None, Some (_, tssLayer, tssAlpha) =>
            blend tssLayer backgroundLayer tssAlpha (100 - tssAlpha)
        | None, None => backgroundLayer
        end in
      let foregroundAlpha := parseInt (foregroundOpacity * 100) in
      ret (result_val
             (if foregroundOpacity === 1 then value
              else blend value backgroundLayer foregroundAlpha (100 - foregroundAlpha))
             (option_map fst chlPart)
             (option_map (fun p => fst (fst p)) tssPart))
  end.

(** The three outputs declared by [setup]. *)
Record Output : Type := {
  default : val;
  chlorophyllIndex : val;
  sedimentIndex : val
}.

Definition evaluatePixel (samples : Sample) : option Output :=
  value <- getValue PARAMS samples ;;
  rgb_value <- get value "rgb_value" ;;
  chl_index <- get value "chl_index" ;;
  sed_index <- get value "sed_index" ;;
  ret {| default := rgb_value;
         chlorophyllIndex := Arr [chl_index];
         sedimentIndex := Arr [sed_index] |}.

(** The chlorophyll and sediment visualization: the layer [getValue]
    computes under [PARAMS] past its two early returns, the sediment ramp
    over the chlorophyll ramp with the opacity [getAlpha] gives the sediment
    index. *)
Definition visualization (s : Sample) : list number :=
  let chlIndex := (getIndices s).(Indices.chl).(mci) in
  let tssIndex := (getIndices s).(Indices.tss).(b05) in
  let tssAlpha := getAlpha tssIndex 0.075 0.185 in
  blend (colorBlend tssIndex [Fin 0.075; Fin 0.185] tss_palette)
        (colorBlend chlIndex
           [Fin (-0.005); -0.005 + (0.05 - -0.005) / 3; (-0.005 + 0.05) / 2;
            0.05 - (0.05 - -0.005) / 3; Fin 0.05]
           chl_palette)
        tssAlpha (100 - tssAlpha).

End Script.

(** *** The specification's wording of the tests and formulas

    These follow the prose, not the script; the theorems compare the two. *)

(** NDWI, [(B03-B08)/(B03+B08)], below [waterMax]. *)
Definition ndwi_below (s : Sample) (waterMax : Q) : bool :=
  (s.(B03) - s.(B08)) / (s.(B03) + s.(B08)) < waterMax.

(** The Hollstein pure-water test. *)
Definition hollstein_pure_water (s : Sample) : bool :=
  (s.(B03) < 0.319) && (s.(B8A) < 0.166) && (s.(B03) - s.(B07) >= 0.027)
  && (s.(B09) - s.(B11) < 0.021).

(** The Braaten-Cohen-Yang cloud test. *)
Definition bcy_cloud (s : Sample) (cloudMax : Q) : bool :=
  (s.(B02) > 0.39)
  || ((s.(B02) > 0.175) && ((s.(B04) - s.(B06)) / (s.(B04) + s.(B06)) > cloudMax)).

(** Maximum chlorophyll index: B05 above the line through B04 (665 nm) and
    B06 (740 nm), read at 705 nm. *)
Definition mci_formula (s : Sample) : Q :=
  (s.(B05) - ((0.74 - 0.705) / (0.74 - 0.665)) * s.(B04)
   - ((0.705 - 0.665) / (0.74 - 0.665)) * s.(B06))%Q.

(** Reflectance line height: B05 above the line through B04 (665 nm) and
    B07 (783 nm), read at 705 nm. *)
Definition rlh_formula (s : Sample) : Q :=
  (s.(B05) - (s.(B04) + (s.(B07) - s.(B04)) * ((0.705 - 0.665) / (0.783 - 0.665))))%Q.

(** What the script relies on from the platform's [colorBlend]: given as
    many limits as colours, it answers with a colour of as many components
    as those of the palette. *)
Definition returns_a_color
  (colorBlend : number -> list number -> list (list number) -> list number) : Prop :=
  forall value limits colors n,
    colors <> [] ->
    List.length limits = List.length colors ->
    Forall (fun c => List.length c = n) colors ->
    List.length (colorBlend value limits colors) = n.

(** *** Pixels to run the script on *)

(** A pixel of open water. *)
Definition lake : Sample := {|
  B02 := 0.06; B03 := 0.08; B04 := 0.05; B05 := 0.06; B06 := 0.03;
  B07 := 0.03; B08 := 0.02; B8A := 0.02; B09 := 0.01; B11 := 0.01
|}.

(** A pixel of vegetated land: NDWI is negative and the Hollstein test
    fails. *)
Definition land : Sample := {|
  B02 := 0.04; B03 := 0.05; B04 := 0.04; B05 := 0.1; B06 := 0.25;
  B07 := 0.3; B08 := 0.3; B8A := 0.3; B09 := 0.3; B11 := 0.2
|}.

(** A pixel whose reflectance is the same in every band: its line height
    over any baseline is zero. *)
Definition flat : Sample := {|
  B02 := 0.1; B03 := 0.1; B04 := 0.1; B05 := 0.1; B06 := 0.1;
  B07 := 0.1; B08 := 0.1; B8A := 0.1; B09 := 0.1; B11 := 0.1
|}.

(** Two bright pixels (B02 = 0.5), alike but for the green band, that pass
    both the NDWI and the Hollstein test. *)
Definition bright (green : Q) : Sample := {|
  B02 := 0.5; B03 := green; B04 := 0.1; B05 := 0.1; B06 := 0.1;
  B07 := 0.1; B08 := 0.1; B8A := 0.1; B09 := 0.05; B11 := 0.05
|}.

(** *** More of the specification's wording *)

(** The test a selected watermask index stands for; a name other than
    ['ndwi'], ['hol'] and ['bcy'] stands for none. *)
Definition index_passes (s : Sample) (waterMax cloudMax : Q) (name : string) : bool :=
  if String.eqb name "ndwi" then negb (ndwi_below s waterMax)
  else if String.eqb name "hol" then hollstein_pure_water s
  else if String.eqb name "bcy" then negb (bcy_cloud s cloudMax)
  else true.

(** A colour given as three finite components between 0 and 255, and a
    background setting whose custom colour, if any, is one. *)
Definition rgb_color (c : list number) : Prop :=
  exists r g b : Q,
    c = [Fin r; Fin g; Fin b]
    /\ (0 <= r <= 255)%Q /\ (0 <= g <= 255)%Q /\ (0 <= b <= 255)%Q.

Definition valid_background (background : Background) : Prop :=
  match background with
  | bg_rgb color => rgb_color color
  | _ => True
  end.

(** A layer of three finite components between 0 and 1. *)
Definition unit_layer (layer : list number) : Prop :=
  exists out : list Q,
    layer = map Fin out /\ List.length out = 3%nat
    /\ Forall (fun z => (0 <= z <= 1)%Q) out.

(** [params] with other watermask settings. *)
Definition with_watermask (params : Params.t) (names : list string)
  (waterMax cloudMax : Q) : Params.t := {|
  Params.chlIndex := params.(Params.chlIndex);
  Params.tssIndex := params.(Params.tssIndex);
  Params.watermaskIndices := names;
  Params.chlMin := params.(Params.chlMin);
  Params.chlMax := params.(Params.chlMax);
  Params.tssMin := params.(Params.tssMin);
  Params.tssMax := params.(Params.tssMax);
  Params.waterMax := waterMax;
  Params.cloudMax := cloudMax;
  Params.foreground := params.(Params.foreground);
  Params.foregroundOpacity := params.(Params.foregroundOpacity);
  Params.background := params.(Params.background);
  Params.backgroundOpacity := params.(Params.backgroundOpacity)
|}.

(** A sample with every band brought from [x] to [k * x + c]. *)
Definition rescale (k c : Q) (s : Sample) : Sample := {|
  B02 := (k * s.(B02) + c)%Q; B03 := (k * s.(B03) + c)%Q;
  B04 := (k * s.(B04) + c)%Q; B05 := (k * s.(B05) + c)%Q;
  B06 := (k * s.(B06) + c)%Q; B07 := (k * s.(B07) + c)%Q;
  B08 := (k * s.(B08) + c)%Q; B8A := (k * s.(B8A) + c)%Q;
  B09 := (k * s.(B09) + c)%Q; B11 := (k * s.(B11) + c)%Q
|}.

(** Settings with the natural-colour layer as the foreground, at half
    opacity over black. *)
Definition natural_foreground : Params.t := {|
  Params.chlIndex := None;
  Params.tssIndex := None;
  Params.watermaskIndices := [];
  Params.chlMin := 0; Params.chlMax := 1; Params.tssMin := 0; Params.tssMax := 1;
  Params.waterMax := 0; Params.cloudMax := 0;
  Params.foreground := fg_natural;
  Params.foregroundOpacity := 0.5;
  Params.background := bg_black;
  Params.backgroundOpacity := 1
|}.

End Evalscript.

(* ===================================================================== *)
(** ** The script's arithmetic in binary64 *)
(* ===================================================================== *)

(** A JavaScript number is an IEEE 754 binary64 value, and every [+], [-],
    [*] and [/] of the script rounds to the nearest one.  What [blend] and
    [getAlpha] return to the last digit, and which branch [getAlpha] takes
    next to a limit, is a matter of that rounding.  The two functions are
    therefore embedded a second time, over Rocq's primitive binary64
    numbers, literal by literal and operation by operation as the script
    writes them. *)

Module Binary64.
Import Floats.
Local Open Scope float_scope.

(** The sediment limits of [PARAMS]: the doubles that the literals [0.075]
    and [0.185] denote. *)
Definition tssMin : float := 0.075.
Definition tssMax : float := 0.185.

(** [layer2[index]] past the end of [layer2] is [undefined], which the
    division turns into NaN. *)
Definition blend (layer1 layer2 : list float) (opacity1 opacity2 : float)
  : list float :=
  JS.map_index
    (fun num index => (num / 100) * opacity1 + (nth index layer2 nan / 100) * opacity2)
    0%nat layer1.

(** [index >= max] is [max <= index]: false as soon as one side is NaN. *)
Definition getAlpha (index min max : float) : float :=
  if min + (max - min) / 2 <? index then 100
  else if index <=? min then 0
  else if max <=? index then 1
  else 100 * ((index - min / 2) / (max - min)).

(** The branch of [getAlpha] a call ends in. *)
Inductive AlphaBranch := alpha_full | alpha_zero | alpha_one | alpha_ramp.

Definition getAlpha_branch (index min max : float) : AlphaBranch :=
  if min + (max - min) / 2 <? index then alpha_full
  else if index <=? min then alpha_zero
  else if max <=? index then alpha_one
  else alpha_ramp.

(** *** The specification's wording

    The convex combination of two layers as the prose writes it,
    [(a/100) * layer1[i] + ((100-a)/100) * layer2[i]], in binary64. *)
Definition convex (a : float) (layer1 layer2 : list float) : list float :=
  map (fun p => (a / 100) * fst p + ((100 - a) / 100) * snd p) (combine layer1 layer2).

(** *** The value of a number

    A finite binary64 number is [m * 2^e] with a sign; [m] has 53 binary
    digits unless the number is subnormal. *)
Definition value (m : positive) (e : Z) : Q := (inject_Z (Z.pos m) * 2 ^ e)%Q.

Definition SF2Q (x : spec_float) : option Q :=
  match x with
  | S754_zero _ => Some 0%Q
  | S754_finite s m e => Some (if s then - value m e else value m e)%Q
  | S754_infinity _ | S754_nan => None
  end.

Definition to_Q (x : float) : option Q := SF2Q (Prim2SF x).

(** The distance between 1 and the next number, [2^-52]. *)
Definition eps : Q := 1 # 4503599627370496.

(** Zero, or a number whose magnitude lies between [2^-900] and [2^900]:
    far from the subnormal numbers and from overflow. *)
Definition ordinary (x : float) : Prop :=
  (x =? 0) = true \/ ((0x1p-900 <=? abs x) && (abs x <=? 0x1p900)) = true.

(** [r] is [x] up to three parts in [2^52]. *)
Definition near (r x : float) : Prop :=
  exists vr vx : Q,
    to_Q r = Some vr /\ to_Q x = Some vx /\ (Qabs (vr - vx) <= 3 * eps * Qabs vx)%Q.

End Binary64.

(* ===================================================================== *)
(** ** The notebook's Python cells *)
(* ===================================================================== *)

Module Notebook.
Local Open Scope string_scope.

(** *** The SDK's values, as the notebook builds them *)

Inductive CRS := WGS84 | EPSG (code : Z).
Record BBox : Type := { coords : Q * Q * Q * Q; crs : CRS }.
Inductive MimeType := TIFF | PNG | JPG.
Inductive MosaickingOrder := MOST_RECENT | LEAST_RECENT | LEAST_CC.

Record SHConfig : Type := {
  sh_client_id : string;
  sh_client_secret : string;
  sh_token_url : string;
  sh_base_url : string
}.

(** [DataCollection.SENTINEL2_L2A], and a collection derived from another
    with [define_from(name, service_url=...)]. *)
Inductive DataCollection :=
| SENTINEL2_L2A
| define_from (parent : DataCollection) (name : string) (service_url : string).

(** [SentinelHubRequest.input_data(...)] and
    [SentinelHubRequest.output_response(...)]. *)
Record InputData : Type := {
  data_collection : DataCollection;
  input_time_interval : string * string;
  mosaicking_order : MosaickingOrder
}.
Record OutputResponse : Type := {
  identifier : string;
  response_format : MimeType
}.

(** A request is what the constructor [SentinelHubRequest(...)] was given:
    its keyword arguments, by name, in the order written. *)
Inductive Arg :=
| Text (s : string)
| Inputs (l : list InputData)
| Responses (l : list OutputResponse)
| Box (b : BBox)
| Size (width height : Z)
| Config (c : SHConfig).

Definition Request := list (string * Arg).

Definition SentinelHubRequest (evalscript : string) (input_data : list InputData)
  (responses : list OutputResponse) (bbox : BBox) (resolution : Z * Z)
  (config : SHConfig) (data_folder : string) : Request :=
  [("evalscript", Text evalscript);
   ("input_data", Inputs input_data);
   ("responses", Responses responses);
   ("bbox", Box bbox);
   ("resolution", Size (fst resolution) (snd resolution));
   ("config", Config config);
   ("data_folder", Text data_folder)].

Section Cells.

(** What lies outside the notebook: the script text it carries, the two
    answers typed at the [getpass] prompts, and the SDK (the reprojection of
    a bounding box and the download, which returns one dictionary of rasters
    per request or raises). *)
Variable custom_script_text : string.
Variables client_id client_secret : string.
Variable transform : BBox -> CRS -> BBox.
Variable Raster : Type.
Variable SdkError : Type.
Variable get_data :
  Request -> bool -> SdkError + list (list (string * Raster)).

(** Exceptions a cell may end with: the SDK's, passed on as raised, and
    Python's own for a missing name, index or key. *)
Inductive Exn :=
| Raised (e : SdkError)
| NameError (name : string)
| IndexError
| KeyError (key : string).

(** Calls that leave the notebook, in the order made. *)
Inductive Event :=
| GetData (request : Request) (save_data : bool)
| PlotImage (img : Raster)
| Imshow (img : Raster).

Definition NB := eitherT Exn (state (list Event)).

Definition emit (e : Event) : NB unit :=
  modify (fun log => (log ++ [e])%list) ;; ret tt.

(** Running a computation from a given log, and from the empty one. *)
Definition exec {A : Type} (c : NB A) (log : list Event)
  : (Exn + A) * list Event :=
  runState (unEitherT c) log.

Definition run {A : Type} (c : NB A) : (Exn + A) * list Event := exec c [].

(** The notebook's namespace; a name is [None] until a cell assigns it. *)
Record Globals : Type := {
  config : option SHConfig;
  taihu_lake_bbox : option BBox;
  time_interval : option (string * string);
  resolution : option (Z * Z);
  custom_script : option string;
  request_UWQV : option Request;
  download_data : option (list (string * Raster))
}.

Definition empty : Globals := {|
  config := None; taihu_lake_bbox := None; time_interval := None;
  resolution := None; custom_script := None; request_UWQV := None;
  download_data := None
|}.

Definition name {A : Type} (n : string) (x : option A) : NB A :=
  match x with
  | Some a => ret a
  | None => raise (NameError n)
  end.

Fixpoint getitem (d : list (string * Raster)) (key : string) : NB Raster :=
  match d with
  | [] => raise (KeyError key)
  | (k, v) :: rest => if String.eqb k key then ret v else getitem rest key
  end.

(** [request.get_data(save_data=...)]: one call to the SDK, whose exception,
    if any, is raised as it is. *)
Definition call_get_data (request : Request) (save_data : bool)
  : NB (list (list (string * Raster))) :=
  emit (GetData request save_data) ;;
  match get_data request save_data with
  | inl e => raise (Raised e)
  | inr data => ret data
  end.

(** Credentials cell: a fresh [SHConfig()] with the four attributes the cell
    assigns. *)
Definition cell_config (g : Globals) : NB Globals :=
  ret {| config := Some {|
           sh_client_id := client_id;
           sh_client_secret := client_secret;
           sh_token_url :=
             "https://identity.dataspace.copernicus.eu/auth/realms/CDSE/protocol/openid-connect/token";
           sh_base_url := "https://sh.dataspace.copernicus.eu" |};
         taihu_lake_bbox := g.(taihu_lake_bbox);
         time_interval := g.(time_interval);
         resolution := g.(resolution);
         custom_script := g.(custom_script);
         request_UWQV := g.(request_UWQV);
         download_data := g.(download_data) |}.

(** Area of interest cell (the overview map it displays reads the bounding
    box and assigns none of the names below; [transform] returns a new box). *)
Definition cell_area (g : Globals) : NB Globals :=
  ret {| config := g.(config);
         taihu_lake_bbox :=
           Some (transform
                   {| coords := (119.7301, 30.919636, 120.684429, 31.661304)%Q;
                      crs := WGS84 |}
                   (EPSG 3035));
         time_interval := Some ("2023-09-01", "2023-09-30");
         resolution := Some (100, 100)%Z;
         custom_script := g.(custom_script);
         request_UWQV := g.(request_UWQV);
         download_data := g.(download_data) |}.

(** Evalscript cell. *)
Definition cell_script (g : Globals) : NB Globals :=
  ret {| config := g.(config);
         taihu_lake_bbox := g.(taihu_lake_bbox);
         time_interval := g.(time_interval);
         resolution := g.(resolution);
         custom_script := Some custom_script_text;
         request_UWQV := g.(request_UWQV);
         download_data := g.(download_data) |}.

(** Request cell. *)
Definition cell_request (g : Globals) : NB Globals :=
  let time_interval' := ("2023-09-01", "2023-09-30") in
  script <- name "custom_script" g.(custom_script) ;;
  cfg <- name "config" g.(config) ;;
  bbox <- name "taihu_lake_bbox" g.(taihu_lake_bbox) ;;
  res <- name "resolution" g.(resolution) ;;
  ret {| config := g.(config);
         taihu_lake_bbox := g.(taihu_lake_bbox);
         time_interval := Some time_interval';
         resolution := g.(resolution);
         custom_script := g.(custom_script);
         request_UWQV :=
           Some (SentinelHubRequest
                   script
                   [ {| data_collection :=
                          define_from SENTINEL2_L2A "s2l2a" cfg.(sh_base_url);
                        input_time_interval := time_interval';
                        mosaicking_order := LEAST_CC |} ]
                   [ {| identifier := "default"; response_format := TIFF |};
                     {| identifier := "chlorophyllIndex"; response_format := TIFF |};
                     {| identifier := "sedimentIndex"; response_format := TIFF |} ]
                   bbox
                   res
                   cfg
                   "./data");
         download_data := g.(download_data) |}.

(** Download cell: [request_UWQV.get_data(save_data=True)[0]] (the keys it
    then shows are read only). *)
Definition cell_download (g : Globals) : NB Globals :=
  request <- name "request_UWQV" g.(request_UWQV) ;;
  data <- call_get_data request true ;;
  first <- match data with
           | d :: _ => ret d
           | [] => raise IndexError
           end ;;
  ret {| config := g.(config);
         taihu_lake_bbox := g.(taihu_lake_bbox);
         time_interval := g.(time_interval);
         resolution := g.(resolution);
         custom_script := g.(custom_script);
         request_UWQV := g.(request_UWQV);
         download_data := Some first |}.

(** The two plotting cells. *)
Definition cell_plot_default (g : Globals) : NB Globals :=
  d <- name "download_data" g.(download_data) ;;
  img <- getitem d "default.tif" ;;
  emit (PlotImage img) ;;
  ret g.

Definition cell_plot_indices (g : Globals) : NB Globals :=
  d <- name "download_data" g.(download_data) ;;
  chlorophyll_index <- getitem d "chlorophyllIndex.tif" ;;
  sediment_index <- getitem d "sedimentIndex.tif" ;;
  emit (Imshow chlorophyll_index) ;;
  emit (Imshow sediment_index) ;;
  ret g.

(** The cells up to and including the one that builds the request, and the
    whole notebook, run top to bottom. *)
Definition build : NB Globals :=
  g <- cell_config empty ;;
  g <- cell_area g ;;
  g <- cell_script g ;;
  cell_request g.

Definition notebook : NB Globals :=
  g <- build ;;
  g <- cell_download g ;;
  g <- cell_plot_default g ;;
  cell_plot_indices g.

(** The configuration the credentials cell leaves, the request the request
    cell builds from it, and the namespace at that point. *)
Definition the_config : SHConfig := {|
  sh_client_id := client_id;
  sh_client_secret := client_secret;
  sh_token_url :=
    "https://identity.dataspace.copernicus.eu/auth/realms/CDSE/protocol/openid-connect/token";
  sh_base_url := "https://sh.dataspace.copernicus.eu"
|}.

Definition the_bbox : BBox :=
  transform {| coords := (119.7301, 30.919636, 120.684429, 31.661304)%Q;
               crs := WGS84 |}
            (EPSG 3035).

Definition the_request : Request :=
  SentinelHubRequest
    custom_script_text
    [ {| data_collection :=
           define_from SENTINEL2_L2A "s2l2a" "https://sh.dataspace.copernicus.eu";
         input_time_interval := ("2023-09-01", "2023-09-30");
         mosaicking_order := LEAST_CC |} ]
    [ {| identifier := "default"; response_format := TIFF |};
      {| identifier := "chlorophyllIndex"; response_format := TIFF |};
      {| identifier := "sedimentIndex"; response_format := TIFF |} ]
    the_bbox
    (100, 100)%Z
    the_config
    "./data".

Definition built : Globals := {|
  config := Some the_config;
  taihu_lake_bbox := Some the_bbox;
  time_interval := Some ("2023-09-01", "2023-09-30");
  resolution := Some (100, 100)%Z;
  custom_script := Some custom_script_text;
  request_UWQV := Some the_request;
  download_data := None
|}.

(** The namespace after the download cell, given the first dictionary of
    the answer. *)
Definition downloaded (d : list (string * Raster)) : Globals := {|
  config := Some the_config;
  taihu_lake_bbox := Some the_bbox;
  time_interval := Some ("2023-09-01", "2023-09-30");
  resolution := Some (100, 100)%Z;
  custom_script := Some custom_script_text;
  request_UWQV := Some the_request;
  download_data := Some d
|}.

(** The [get_data] calls of a log. *)
Definition get_data_calls (log : list Event) : list (Request * bool) :=
  flat_map (fun e => match e with
                     | GetData r s => [(r, s)]
                     | _ => []
                     end) log.

End Cells.

(** A stand-in for the SDK: the reprojection relabels the box, and the
    download either fails on quota or answers with the three rasters. *)
Definition relabel (b : BBox) (c : CRS) : BBox :=
  {| coords := coords b; crs := c |}.

Definition out_of_quota (r : Request) (save_data : bool)
  : string + list (list (string * nat)) :=
  inl "quota exceeded".

Definition three_rasters (r : Request) (save_data : bool)
  : string + list (list (string * nat)) :=
  inr [[("default.tif", 1%nat); ("chlorophyllIndex.tif", 2%nat);
        ("sedimentIndex.tif", 3%nat)]].

(** The value a dictionary holds under a key, if any. *)
Fixpoint dict_get {A : Type} (d : list (string * A)) (key : string) : option A :=
  match d with
  | [] => None
  | (k, v) :: rest => if String.eqb k key then Some v else dict_get rest key
  end.

(** Two more stand-ins for the download: an answer with no dictionary, and
    one whose dictionary holds the default raster only. *)
Definition no_dictionary (r : Request) (save_data : bool)
  : string + list (list (string * nat)) :=
  inr [].

Definition default_raster_only (r : Request) (save_data : bool)
  : string + list (list (string * nat)) :=
  inr [[("default.tif", 1%nat)]].

End Notebook.

(* ===================================================================== *)
(** ** Facts about numbers and values *)
(* ===================================================================== *)

Module JSFacts.
Import JS.
Local Open Scope Q_scope.

Lemma add_Fin (a b : Q) : add a b = Fin (a + b).
Proof. reflexivity. Qed.

Lemma sub_Fin (a b : Q) : sub a b = Fin (a - b).
Proof. reflexivity. Qed.

Lemma mul_Fin (a b : Q) : mul a b = Fin (a * b).
Proof. reflexivity. Qed.

Lemma div_Fin (a b : Q) : ~ b == 0 -> div a b = Fin (a / b).
Proof.
  intros Hb. unfold div.
  destruct (Qcompare_spec b 0) as [E | _ | _]; [contradiction | reflexivity | reflexivity].
Qed.

Lemma lt_Fin (a b : Q) : lt a b = true <-> a < b.
Proof.
  unfold lt, cmp. rewrite Qlt_alt.
  destruct (a ?= b); split; congruence.
Qed.

Lemma gt_Fin (a b : Q) : gt a b = true <-> b < a.
Proof.
  unfold gt, cmp. rewrite Qgt_alt.
  destruct (a ?= b); split; congruence.
Qed.

Lemma le_Fin (a b : Q) : le a b = true <-> a <= b.
Proof.
  unfold le, cmp. rewrite Qle_alt.
  destruct (a ?= b); split; congruence.
Qed.

Lemma ge_Fin (a b : Q) : ge a b = true <-> b <= a.
Proof.
  unfold ge, cmp. rewrite Qge_alt.
  destruct (a ?= b); split; congruence.
Qed.

Lemma lt_Fin_false (a b : Q) : lt a b = false <-> b <= a.
Proof.
  rewrite <- not_true_iff_false, lt_Fin. split; [apply Qnot_lt_le | apply Qle_not_lt].
Qed.

Lemma le_Fin_false (a b : Q) : le a b = false <-> b < a.
Proof.
  rewrite <- not_true_iff_false, le_Fin. split; [apply Qnot_le_lt | apply Qlt_not_le].
Qed.

Lemma ge_Fin_false (a b : Q) : ge a b = false <-> a < b.
Proof.
  rewrite <- not_true_iff_false, ge_Fin. split; [apply Qnot_le_lt | apply Qlt_not_le].
Qed.

Lemma same_refl (x : number) : same x x.
Proof. destruct x; simpl; auto. reflexivity. Qed.

Lemma same_sym (x y : number) : same x y -> same y x.
Proof. destruct x, y; simpl; auto. intros H; symmetry; exact H. Qed.

Lemma same_trans (x y z : number) : same x y -> same y z -> same x z.
Proof.
  destruct x, y, z; simpl; auto; try contradiction.
  intros H1 H2. rewrite H1. exact H2.
Qed.

(** [numbers] loses nothing: equal arrays come from equal lists. *)
Lemma numbers_inj (l1 l2 : list number) : numbers l1 = numbers l2 -> l1 = l2.
Proof.
  unfold numbers. intros H. injection H as H. revert l2 H.
  induction l1 as [| x l1 IH]; intros [| y l2] H; simpl in H; try discriminate.
  - reflexivity.
  - injection H as Hx Hl. f_equal; auto.
Qed.

Lemma map_index_length {A B : Type} (f : A -> nat -> B) (l : list A) :
  forall i, List.length (map_index f i l) = List.length l.
Proof. induction l as [| x l IH]; intros i; simpl; [reflexivity | now rewrite IH]. Qed.

(** When the callback looks its index up in a second list of the same
    length, [map_index] is a map over the two lists side by side. *)
Lemma map_index_combine {A B C : Type} (g : A -> B -> C) (d : B) (l1 : list A) :
  forall (l2 pre : list B),
    List.length l1 = List.length l2 ->
    map_index (fun x i => g x (nth i (pre ++ l2) d)) (List.length pre) l1
    = map (fun p => g (fst p) (snd p)) (combine l1 l2).
Proof.
  induction l1 as [| x l1 IH]; intros [| y l2] pre Hlen; simpl in *; try discriminate.
  - reflexivity.
  - rewrite nth_middle. f_equal.
    specialize (IH l2 (pre ++ [y])%list).
    rewrite <- app_assoc, length_app, Nat.add_comm in IH. simpl in IH.
    apply IH. now injection Hlen.
Qed.

End JSFacts.

(* ===================================================================== *)
(** ** Binary64: rounding, the four operations and the order *)
(* ===================================================================== *)

(** The primitive operations are specified by the functions of [SpecFloat]
    on sign, mantissa and exponent.  This module reads off them what the
    later modules need: an operation on normal numbers, away from overflow
    and underflow, returns a normal number whose value is the exact result
    up to one part in [2^52], and normal numbers compare as their values. *)

Module FloatFacts.
Import Floats Binary64.
Local Open Scope Z_scope.

(** *** Binary digits *)

Lemma digits_bounds (p : positive) :
  2 ^ (Z.pos (digits2_pos p) - 1) <= Z.pos p < 2 ^ Z.pos (digits2_pos p).
Proof.
  induction p as [p IH | p IH |]; cbn [digits2_pos].
  - rewrite Pos2Z.inj_succ.
    replace (Z.succ (Z.pos (digits2_pos p)) - 1)
      with (Z.succ (Z.pos (digits2_pos p) - 1)) by lia.
    rewrite !Z.pow_succ_r by lia. lia.
  - rewrite Pos2Z.inj_succ.
    replace (Z.succ (Z.pos (digits2_pos p)) - 1)
      with (Z.succ (Z.pos (digits2_pos p) - 1)) by lia.
    rewrite !Z.pow_succ_r by lia. lia.
  - simpl. lia.
Qed.

Lemma digits_unique (p : positive) (n : Z) :
  2 ^ (n - 1) <= Z.pos p < 2 ^ n -> Z.pos (digits2_pos p) = n.
Proof.
  intros [Hlo Hhi]. pose proof (digits_bounds p) as [Dlo Dhi].
  assert (0 < n).
  { destruct (Z_lt_le_dec 0 n); [assumption |].
    destruct (Z.eq_dec n 0) as [-> | Hn]; [simpl in Hhi; lia |].
    rewrite Z.pow_neg_r in Hhi by lia. lia. }
  destruct (Z_lt_le_dec (Z.pos (digits2_pos p)) n) as [Hlt | Hge].
  - assert (2 ^ Z.pos (digits2_pos p) <= 2 ^ (n - 1)) by (apply Z.pow_le_mono_r; lia).
    lia.
  - destruct (Z.eq_dec (Z.pos (digits2_pos p)) n) as [-> | Hne]; [reflexivity |].
    assert (2 ^ n <= 2 ^ (Z.pos (digits2_pos p) - 1)) by (apply Z.pow_le_mono_r; lia).
    lia.
Qed.

Lemma digits_range (p : positive) (lo hi : Z) :
  0 <= lo -> 2 ^ lo <= Z.pos p < 2 ^ hi -> lo + 1 <= Z.pos (digits2_pos p) <= hi.
Proof.
  intros Hlo [H1 H2]. pose proof (digits_bounds p) as [D1 D2].
  split.
  - assert (lo < Z.pos (digits2_pos p)); [| lia].
    apply (Z.pow_lt_mono_r_iff 2); lia.
  - assert (Z.pos (digits2_pos p) - 1 < hi); [| lia].
    apply (Z.pow_lt_mono_r_iff 2); try lia.
    destruct (Z_lt_le_dec hi 0); [rewrite Z.pow_neg_r in H2 by lia; lia | lia].
Qed.

Lemma mantissa_bounds (m : positive) :
  Z.pos (digits2_pos m) = 53 -> 2 ^ 52 <= Z.pos m < 2 ^ 53.
Proof. intros H. pose proof (digits_bounds m) as D. rewrite H in D. exact D. Qed.

(** *** Shifting a mantissa *)

Lemma shr_1_m (mrs : shr_record) :
  0 <= shr_m mrs -> shr_m (shr_1 mrs) = shr_m mrs / 2.
Proof.
  destruct mrs as [m r s]. cbn [shr_m]. intros Hm.
  destruct m as [| p | p]; [reflexivity | | lia].
  destruct p as [p | p |]; cbn [shr_1 shr_m].
  - rewrite Pos2Z.inj_xI. apply Z.div_unique with 1; lia.
  - rewrite Pos2Z.inj_xO. apply Z.div_unique with 0; lia.
  - reflexivity.
Qed.

Lemma iter_shr_1_m (k : positive) (mrs : shr_record) :
  0 <= shr_m mrs -> shr_m (iter_pos shr_1 k mrs) = shr_m mrs / 2 ^ Z.pos k.
Proof.
  revert mrs. induction k as [k IH | k IH |]; intros mrs Hm; cbn [iter_pos].
  - assert (H1 : 0 <= shr_m (shr_1 mrs)) by (rewrite shr_1_m by lia; apply Z.div_pos; lia).
    assert (H2 : 0 <= shr_m (iter_pos shr_1 k (shr_1 mrs)))
      by (rewrite IH by lia; apply Z.div_pos; [lia | apply Z.pow_pos_nonneg; lia]).
    rewrite IH, IH, shr_1_m by lia.
    rewrite !Z.div_div by (try apply Z.pow_pos_nonneg; lia).
    f_equal. rewrite <- Z.pow_add_r, <- Z.pow_succ_r by lia. f_equal. lia.
  - assert (H2 : 0 <= shr_m (iter_pos shr_1 k mrs))
      by (rewrite IH by lia; apply Z.div_pos; [lia | apply Z.pow_pos_nonneg; lia]).
    rewrite IH, IH by lia.
    rewrite !Z.div_div by (try apply Z.pow_pos_nonneg; lia).
    f_equal. rewrite <- Z.pow_add_r by lia. f_equal. lia.
  - rewrite shr_1_m by lia. reflexivity.
Qed.

Lemma shr_record_of_loc_m (m : Z) (l : location) : shr_m (shr_record_of_loc m l) = m.
Proof. destruct l as [| []]; reflexivity. Qed.

Lemma shr_m_shift (m e n : Z) (l : location) :
  0 <= m -> 0 <= n ->
  shr_m (fst (shr (shr_record_of_loc m l) e n)) = m / 2 ^ n
  /\ snd (shr (shr_record_of_loc m l) e n) = e + n.
Proof.
  intros Hm Hn. destruct n as [| k | k]; cbn [shr fst snd]; [| | lia].
  - rewrite shr_record_of_loc_m, Z.div_1_r. split; [reflexivity | lia].
  - rewrite iter_shr_1_m by (rewrite shr_record_of_loc_m; lia).
    rewrite shr_record_of_loc_m. split; reflexivity.
Qed.

Lemma iter_xO (m d : positive) : Z.pos (Pos.iter xO m d) = Z.pos m * 2 ^ Z.pos d.
Proof.
  induction d as [| d IH] using Pos.peano_ind.
  - cbn [Pos.iter]. lia.
  - rewrite Pos.iter_succ, Pos2Z.inj_xO, IH, Pos2Z.inj_succ, Z.pow_succ_r by lia. lia.
Qed.

Lemma shl_align_m (m : positive) (e e' : Z) :
  e' <= e -> Z.pos (fst (shl_align m e e')) = Z.pos m * 2 ^ (e - e').
Proof.
  intros H. unfold shl_align.
  destruct (e' - e) as [| d | d] eqn:E; cbn [fst]; try lia.
  - replace (e - e') with 0 by lia. lia.
  - rewrite iter_xO. f_equal. f_equal. lia.
Qed.

Lemma shl_align_e (m : positive) (e e' : Z) :
  snd (shl_align m e e') = Z.min e e'.
Proof.
  unfold shl_align. destruct (e' - e) as [| d | d] eqn:E; cbn [snd]; lia.
Qed.

(** *** Rounding to 53 digits *)

Lemma round_nearest_even_bounds (m : Z) (l : location) :
  m <= round_nearest_even m l <= m + 1.
Proof.
  unfold round_nearest_even. destruct l as [| []]; try destruct (Z.even m); lia.
Qed.

(** Above the subnormal numbers the exponent of a number of magnitude
    [2^x] is [x - 53]. *)
Lemma fexp_normal (x : Z) : -1021 <= x -> fexp prec emax x = x - 53.
Proof. unfold fexp, emin, prec, emax. lia. Qed.

(** Rounding a mantissa of [d >= 53] digits drops its [d - 53] low digits
    and goes up by at most one unit of what remains. *)
Lemma binary_round_aux_normal (s : bool) (p : positive) (e : Z) (l : location) :
  let d := Z.pos (digits2_pos p) in
  53 <= d -> -1021 <= d + e -> d + e <= 1023 ->
  exists (m' : positive) (e' : Z),
    binary_round_aux prec emax s (Z.pos p) e l = S754_finite s m' e'
    /\ Z.pos (digits2_pos m') = 53
    /\ e + (d - 53) <= e' <= e + (d - 53) + 1
    /\ Z.pos p - 2 ^ (d - 53) < Z.pos m' * 2 ^ (e' - e) <= Z.pos p + 2 ^ (d - 53).
Proof.
  intros d Hd Hlo Hhi.
  pose proof (digits_bounds p) as [Dlo Dhi]. fold d in Dlo, Dhi.
  set (k := d - 53) in *.
  assert (Hk : 0 <= k) by (unfold k; lia).
  assert (Hpow : 0 < 2 ^ k) by (apply Z.pow_pos_nonneg; lia).
  assert (S1 : 2 ^ (d - 1) = 2 ^ 52 * 2 ^ k)
    by (rewrite <- Z.pow_add_r by lia; f_equal; unfold k; lia).
  assert (S2 : 2 ^ d = 2 ^ 53 * 2 ^ k)
    by (rewrite <- Z.pow_add_r by lia; f_equal; unfold k; lia).
  rewrite S1 in Dlo. rewrite S2 in Dhi.
  set (m1 := Z.pos p / 2 ^ k).
  assert (Hm1 : m1 * 2 ^ k <= Z.pos p < (m1 + 1) * 2 ^ k).
  { unfold m1. pose proof (Z.div_mod (Z.pos p) (2 ^ k) ltac:(lia)).
    pose proof (Z.mod_pos_bound (Z.pos p) (2 ^ k) Hpow). nia. }
  assert (Hm1r : 2 ^ 52 <= m1 < 2 ^ 53) by nia.
  unfold binary_round_aux.
  unfold shr_fexp at 1. cbn [Zdigits2]. fold d.
  rewrite fexp_normal by lia.
  replace (d + e - 53 - e) with k by (unfold k; lia).
  destruct (shr_m_shift (Z.pos p) e k l ltac:(lia) Hk) as [Hm He].
  destruct (shr (shr_record_of_loc (Z.pos p) l) e k) as [mrs' e1].
  cbn [fst snd] in Hm, He. fold m1 in Hm. subst e1.
  pose proof (round_nearest_even_bounds (shr_m mrs') (loc_of_shr_record mrs')) as Hr.
  rewrite Hm in *.
  set (m2 := round_nearest_even m1 (loc_of_shr_record mrs')) in *.
  destruct m2 as [| p2 | p2] eqn:Ep2; [lia | | lia].
  unfold shr_fexp. cbn [Zdigits2].
  destruct (Z_lt_le_dec (Z.pos p2) (2 ^ 53)) as [Hsmall | Hbig].
  - assert (D2 : Z.pos (digits2_pos p2) = 53) by (apply digits_unique; lia).
    rewrite D2, fexp_normal by lia.
    replace (53 + (e + k) - 53 - (e + k)) with 0 by lia.
    cbn [shr shr_record_of_loc shr_m].
    replace (e + k <=? emax - prec) with true
      by (symmetry; apply Z.leb_le; unfold emax, prec, k; lia).
    exists p2, (e + k). split; [reflexivity |]. split; [exact D2 |].
    split; [lia |]. replace (e + k - e) with k by lia. nia.
  - assert (E2 : Z.pos p2 = 2 ^ 53) by lia.
    assert (D2 : Z.pos (digits2_pos p2) = 54)
      by (apply digits_unique; rewrite E2; simpl; lia).
    rewrite D2, fexp_normal by lia.
    replace (54 + (e + k) - 53 - (e + k)) with 1 by lia.
    cbn [shr iter_pos].
    assert (Hs : shr_m (shr_1 (shr_record_of_loc (Z.pos p2) loc_Exact)) = 2 ^ 52).
    { rewrite shr_1_m by (rewrite shr_record_of_loc_m; lia).
      rewrite shr_record_of_loc_m, E2. reflexivity. }
    rewrite Hs. change (2 ^ 52) with (Z.pos 4503599627370496).
    cbv iota.
    replace (e + k + 1 <=? emax - prec) with true
      by (symmetry; apply Z.leb_le; unfold emax, prec, k; lia).
    exists 4503599627370496%positive, (e + k + 1).
    split; [reflexivity |]. split; [reflexivity |]. split; [lia |].
    replace (e + k + 1 - e) with (k + 1) by lia.
    rewrite Z.pow_add_r by lia. change (2 ^ 1) with 2.
    change (Z.pos 4503599627370496) with (2 ^ 52).
    assert (m1 + 1 = 2 ^ 53) by lia. nia.
Qed.

(** A mantissa of 53 digits with nothing beyond it is not rounded. *)
Lemma binary_round_aux_exact (s : bool) (p : positive) (e : Z) :
  Z.pos (digits2_pos p) = 53 -> -1074 <= e <= 970 ->
  binary_round_aux prec emax s (Z.pos p) e loc_Exact = S754_finite s p e.
Proof.
  intros Hd He. unfold binary_round_aux, shr_fexp. cbn [Zdigits2].
  rewrite Hd, fexp_normal by lia.
  replace (53 + e - 53 - e) with 0 by lia.
  cbn [shr shr_record_of_loc shr_m loc_of_shr_record round_nearest_even Zdigits2].
  rewrite Hd, fexp_normal by lia.
  replace (53 + e - 53 - e) with 0 by lia.
  cbn [shr shr_record_of_loc shr_m].
  replace (e <=? emax - prec) with true
    by (symmetry; apply Z.leb_le; unfold emax, prec; lia).
  reflexivity.
Qed.

(** *** Values *)

Lemma two_not_zero : ~ (2 == 0)%Q.
Proof. discriminate. Qed.

Lemma pow2_pos (e : Z) : (0 < 2 ^ e)%Q.
Proof. apply Qpower_0_lt. reflexivity. Qed.

Lemma pow2_add (a b : Z) : (2 ^ (a + b) == 2 ^ a * 2 ^ b)%Q.
Proof. apply Qpower_plus. exact two_not_zero. Qed.

Lemma inject_pow2 (n : Z) : 0 <= n -> (inject_Z (2 ^ n) == 2 ^ n)%Q.
Proof. intros H. now rewrite Zpower_Qpower. Qed.

Lemma eps_is_two_to_minus_52 : (eps == 2 ^ (-52))%Q.
Proof. reflexivity. Qed.

Lemma value_pos (m : positive) (e : Z) : (0 < value m e)%Q.
Proof.
  unfold value. apply Qmult_lt_0_compat; [| apply pow2_pos].
  change 0%Q with (inject_Z 0). rewrite <- Zlt_Qlt. lia.
Qed.

(** [z * 2^(e' - e)] at the exponent [e] is [z] at the exponent [e']. *)
Lemma scaled (z e e' : Z) :
  e <= e' -> (inject_Z (z * 2 ^ (e' - e)) * 2 ^ e == inject_Z z * 2 ^ e')%Q.
Proof.
  intros H. rewrite inject_Z_mult, inject_pow2 by lia.
  replace e' with ((e' - e) + e) at 2 by lia. rewrite pow2_add. ring.
Qed.

Lemma value_mul (mx my : positive) (ex ey : Z) :
  (value (mx * my) (ex + ey) == value mx ex * value my ey)%Q.
Proof.
  unfold value. rewrite Pos2Z.inj_mul, inject_Z_mult, pow2_add. ring.
Qed.

Lemma value_div (mx my : positive) (ex ey : Z) :
  (value mx ex / value my ey
   == inject_Z (Z.pos mx * 2 ^ 53) / inject_Z (Z.pos my) * 2 ^ (ex - ey - 53))%Q.
Proof.
  unfold value. rewrite inject_Z_mult, inject_pow2 by lia.
  replace ex with ((ex - ey - 53) + 53 + ey) at 1 by lia.
  rewrite !pow2_add.
  assert (H1 := pow2_pos ey). assert (H2 := pow2_pos 53).
  assert (H3 : (0 < inject_Z (Z.pos my))%Q)
    by (change 0%Q with (inject_Z 0); rewrite <- Zlt_Qlt; lia).
  field. split; intros E; rewrite E in *; lra.
Qed.

(** The value of the rounded number is the value before rounding up to one
    part in [2^52]. *)
Lemma binary_round_aux_value (s : bool) (p : positive) (e : Z) (l : location) :
  53 <= Z.pos (digits2_pos p) ->
  -1021 <= Z.pos (digits2_pos p) + e -> Z.pos (digits2_pos p) + e <= 1023 ->
  exists (m' : positive) (e' : Z),
    binary_round_aux prec emax s (Z.pos p) e l = S754_finite s m' e'
    /\ Z.pos (digits2_pos m') = 53
    /\ e + (Z.pos (digits2_pos p) - 53) <= e' <= e + (Z.pos (digits2_pos p) - 53) + 1
    /\ (value p e * (1 - eps) <= value m' e' <= value p e * (1 + eps))%Q.
Proof.
  intros Hd Hlo Hhi.
  destruct (binary_round_aux_normal s p e l Hd Hlo Hhi) as (m' & e' & Hr & Hm & He & Hv).
  set (d := Z.pos (digits2_pos p)) in *.
  exists m', e'. split; [exact Hr |]. split; [exact Hm |]. split; [lia |].
  pose proof (digits_bounds p) as [Dlo _]. fold d in Dlo.
  assert (Hk : 2 ^ 52 * 2 ^ (d - 53) <= Z.pos p).
  { rewrite <- Z.pow_add_r by lia. replace (52 + (d - 53)) with (d - 1) by lia. exact Dlo. }
  set (K := 2 ^ (d - 53)) in *. set (A := Z.pos m' * 2 ^ (e' - e)) in *.
  assert (H1 : Z.pos p <= A + K) by lia.
  assert (H2 : A <= Z.pos p + K) by lia.
  rewrite Zle_Qle in H1, H2, Hk.
  rewrite inject_Z_plus in H1, H2. rewrite inject_Z_mult in Hk.
  change (inject_Z (2 ^ 52)) with (4503599627370496 # 1)%Q in Hk.
  unfold value. rewrite <- (scaled (Z.pos m') e e') by lia. fold A.
  assert (Hpos := pow2_pos e).
  setoid_replace (inject_Z (Z.pos p) * 2 ^ e * (1 - eps))%Q
    with (inject_Z (Z.pos p) * (1 - eps) * 2 ^ e)%Q by ring.
  setoid_replace (inject_Z (Z.pos p) * 2 ^ e * (1 + eps))%Q
    with (inject_Z (Z.pos p) * (1 + eps) * 2 ^ e)%Q by ring.
  split; (apply Qmult_le_compat_r; [| apply Qlt_le_weak, Hpos]); unfold eps; lra.
Qed.

(** The same for an integer of any number of digits: a short one is
    shifted to 53 digits and not rounded at all. *)
Lemma binary_round_value (s : bool) (p : positive) (e : Z) :
  -1021 <= Z.pos (digits2_pos p) + e <= 1023 ->
  exists (m' : positive) (e' : Z),
    binary_round prec emax s p e = S754_finite s m' e'
    /\ Z.pos (digits2_pos m') = 53
    /\ Z.pos (digits2_pos p) + e - 53 <= e' <= Z.pos (digits2_pos p) + e - 52
    /\ (value p e * (1 - eps) <= value m' e' <= value p e * (1 + eps))%Q.
Proof.
  intros Hr. unfold binary_round.
  rewrite fexp_normal by lia.
  set (d := Z.pos (digits2_pos p)) in *.
  pose proof (shl_align_e p e (d + e - 53)) as He.
  destruct (Z_lt_le_dec d 53) as [Hsmall | Hbig].
  - pose proof (shl_align_m p e (d + e - 53) ltac:(lia)) as Hm.
    destruct (shl_align p e (d + e - 53)) as [mz ez]. cbn [fst snd] in Hm, He.
    rewrite Z.min_r in He by lia. subst ez.
    replace (e - (d + e - 53)) with (53 - d) in Hm by lia.
    assert (Dz : Z.pos (digits2_pos mz) = 53).
    { apply digits_unique. rewrite Hm.
      pose proof (digits_bounds p) as [D1 D2]. fold d in D1, D2.
      replace (2 ^ (53 - 1)) with (2 ^ (d - 1) * 2 ^ (53 - d))
        by (rewrite <- Z.pow_add_r by lia; f_equal; lia).
      replace (2 ^ 53) with (2 ^ d * 2 ^ (53 - d))
        by (rewrite <- Z.pow_add_r by lia; f_equal; lia).
      assert (0 < 2 ^ (53 - d)) by (apply Z.pow_pos_nonneg; lia). nia. }
    rewrite binary_round_aux_exact by (try exact Dz; lia).
    exists mz, (d + e - 53). split; [reflexivity |]. split; [exact Dz |]. split; [lia |].
    assert (Ev : (value mz (d + e - 53) == value p e)%Q).
    { unfold value. rewrite Hm.
      replace (53 - d) with (e - (d + e - 53)) by lia. apply scaled. lia. }
    rewrite Ev. assert (Hp := value_pos p e). unfold eps. split; nra.
  - assert (Hsh : shl_align p e (d + e - 53) = (p, e)).
    { unfold shl_align. destruct (d + e - 53 - e) eqn:E; try reflexivity. lia. }
    rewrite Hsh.
    destruct (binary_round_aux_value s p e loc_Exact) as (m' & e' & Hres & Hm & He' & Hv);
      fold d; try lia.
    fold d in He'.
    exists m', e'. split; [exact Hres |]. split; [exact Hm |]. split; [lia | exact Hv].
Qed.

(** *** The operations on normal numbers *)

Lemma SFmul_normal (sx sy : bool) (mx my : positive) (ex ey : Z) :
  Z.pos (digits2_pos mx) = 53 -> Z.pos (digits2_pos my) = 53 ->
  -1126 <= ex + ey <= 917 ->
  exists (m' : positive) (e' : Z),
    SFmul prec emax (S754_finite sx mx ex) (S754_finite sy my ey)
    = S754_finite (xorb sx sy) m' e'
    /\ Z.pos (digits2_pos m') = 53
    /\ ex + ey + 52 <= e' <= ex + ey + 54
    /\ (value mx ex * value my ey * (1 - eps) <= value m' e'
        <= value mx ex * value my ey * (1 + eps))%Q.
Proof.
  intros Dx Dy He. cbn [SFmul].
  pose proof (mantissa_bounds mx Dx) as Bx. pose proof (mantissa_bounds my Dy) as By.
  assert (Dp : 104 + 1 <= Z.pos (digits2_pos (mx * my)) <= 106).
  { apply digits_range; [lia |]. rewrite Pos2Z.inj_mul.
    change (2 ^ 104) with (2 ^ 52 * 2 ^ 52). change (2 ^ 106) with (2 ^ 53 * 2 ^ 53).
    split; [apply Z.mul_le_mono_nonneg | apply Z.mul_lt_mono_nonneg]; lia. }
  destruct (binary_round_aux_value (xorb sx sy) (mx * my) (ex + ey) loc_Exact)
    as (m' & e' & Hr & Hm & He' & Hv); try lia.
  exists m', e'. rewrite <- value_mul.
  split; [exact Hr |]. split; [exact Hm |]. split; [lia | exact Hv].
Qed.

Lemma SFdiv_normal (sx sy : bool) (mx my : positive) (ex ey : Z) :
  Z.pos (digits2_pos mx) = 53 -> Z.pos (digits2_pos my) = 53 ->
  -1021 <= ex - ey <= 1022 ->
  exists (m' : positive) (e' : Z),
    SFdiv prec emax (S754_finite sx mx ex) (S754_finite sy my ey)
    = S754_finite (xorb sx sy) m' e'
    /\ Z.pos (digits2_pos m') = 53
    /\ ex - ey - 53 <= e' <= ex - ey - 51
    /\ (value mx ex / value my ey * (1 - 2 * eps) <= value m' e'
        <= value mx ex / value my ey * (1 + eps))%Q.
Proof.
  intros Dx Dy He. cbn [SFdiv]. unfold SFdiv_core_binary. cbn [Zdigits2].
  rewrite Dx, Dy.
  replace (53 + ex - (53 + ey)) with (ex - ey) by lia.
  rewrite fexp_normal by lia.
  rewrite Z.min_l by lia.
  replace (ex - ey - (ex - ey - 53)) with 53 by lia.
  rewrite Z.shiftl_mul_pow2 by lia.
  pose proof (mantissa_bounds mx Dx) as Bx. pose proof (mantissa_bounds my Dy) as By.
  pose proof (Z_div_mod (Z.pos mx * 2 ^ 53) (Z.pos my) ltac:(lia)) as Hdiv.
  destruct (Z.div_eucl (Z.pos mx * 2 ^ 53) (Z.pos my)) as [q r].
  destruct Hdiv as [Hq Hr].
  assert (Bq : 2 ^ 52 <= q < 2 ^ 54).
  { change (2 ^ 53) with 9007199254740992 in *.
    change (2 ^ 52) with 4503599627370496 in *.
    change (2 ^ 54) with 18014398509481984. nia. }
  destruct q as [| pq | pq]; [simpl in Bq; lia | | lia].
  assert (Dq : 52 + 1 <= Z.pos (digits2_pos pq) <= 54) by (apply digits_range; lia).
  destruct (binary_round_aux_value (xorb sx sy) pq (ex - ey - 53)
              (new_location (Z.pos my) r))
    as (m' & e' & Hres & Hm & He' & Hv); try lia.
  exists m', e'. split; [exact Hres |]. split; [exact Hm |]. split; [lia |].
  rewrite value_div.
  set (T := (inject_Z (Z.pos mx * 2 ^ 53) / inject_Z (Z.pos my))%Q).
  assert (H3 : (0 < inject_Z (Z.pos my))%Q)
    by (change 0%Q with (inject_Z 0); rewrite <- Zlt_Qlt; lia).
  assert (Tlo : (inject_Z (Z.pos pq) <= T)%Q).
  { unfold T. apply Qle_shift_div_l; [exact H3 |].
    rewrite <- inject_Z_mult, <- Zle_Qle. nia. }
  assert (Thi : (T <= inject_Z (Z.pos pq) + 1)%Q).
  { unfold T. apply Qle_shift_div_r; [exact H3 |].
    change 1%Q with (inject_Z 1).
    rewrite <- inject_Z_plus, <- inject_Z_mult, <- Zle_Qle. nia. }
  assert (Tbig : (4503599627370496 <= inject_Z (Z.pos pq))%Q).
  { change (4503599627370496)%Q with (inject_Z (2 ^ 52)). rewrite <- Zle_Qle. lia. }
  unfold value in Hv |- *.
  assert (Hpos := pow2_pos (ex - ey - 53)).
  setoid_replace (T * 2 ^ (ex - ey - 53) * (1 - 2 * eps))%Q
    with (T * (1 - 2 * eps) * 2 ^ (ex - ey - 53))%Q by ring.
  setoid_replace (T * 2 ^ (ex - ey - 53) * (1 + eps))%Q
    with (T * (1 + eps) * 2 ^ (ex - ey - 53))%Q by ring.
  destruct Hv as [Hv1 Hv2]. split.
  - eapply Qle_trans; [| exact Hv1].
    setoid_replace (inject_Z (Z.pos pq) * 2 ^ (ex - ey - 53) * (1 - eps))%Q
      with (inject_Z (Z.pos pq) * (1 - eps) * 2 ^ (ex - ey - 53))%Q by ring.
    apply Qmult_le_compat_r; [| apply Qlt_le_weak, Hpos]. unfold eps. lra.
  - eapply Qle_trans; [exact Hv2 |].
    setoid_replace (inject_Z (Z.pos pq) * 2 ^ (ex - ey - 53) * (1 + eps))%Q
      with (inject_Z (Z.pos pq) * (1 + eps) * 2 ^ (ex - ey - 53))%Q by ring.
    apply Qmult_le_compat_r; [| apply Qlt_le_weak, Hpos]. unfold eps. lra.
Qed.

(** The difference of two positive numbers, the larger one first. *)
Lemma SFsub_normal (mx my : positive) (ex ey : Z) :
  Z.pos (digits2_pos mx) = 53 -> Z.pos (digits2_pos my) = 53 ->
  -1022 <= ex <= 970 -> -1022 <= ey <= 970 ->
  (value my ey < value mx ex)%Q ->
  exists (m' : positive) (e' : Z),
    SFsub prec emax (S754_finite false mx ex) (S754_finite false my ey)
    = S754_finite false m' e'
    /\ Z.pos (digits2_pos m') = 53
    /\ Z.min ex ey - 52 <= e' <= ex + 1
    /\ ((value mx ex - value my ey) * (1 - eps) <= value m' e'
        <= (value mx ex - value my ey) * (1 + eps))%Q.
Proof.
  intros Dx Dy Hex Hey Hlt. cbn [SFsub cond_Zopp].
  set (ez := Z.min ex ey).
  rewrite (shl_align_m mx ex ez), (shl_align_m my ey ez) by (unfold ez; lia).
  assert (Vx : (value mx ex == inject_Z (Z.pos mx * 2 ^ (ex - ez)) * 2 ^ ez)%Q)
    by (unfold value; rewrite scaled by (unfold ez; lia); reflexivity).
  assert (Vy : (value my ey == inject_Z (Z.pos my * 2 ^ (ey - ez)) * 2 ^ ez)%Q)
    by (unfold value; rewrite scaled by (unfold ez; lia); reflexivity).
  set (ax := Z.pos mx * 2 ^ (ex - ez)) in *. set (ay := Z.pos my * 2 ^ (ey - ez)) in *.
  assert (Hpos := pow2_pos ez).
  assert (Hd : 0 < ax - ay).
  { rewrite Vx, Vy in Hlt. apply Z.lt_0_sub. rewrite Zlt_Qlt.
    apply Qmult_lt_r with (2 ^ ez)%Q; assumption. }
  destruct (ax - ay) as [| pd | pd] eqn:Ed; [lia | | lia].
  cbn [binary_normalize].
  assert (Vd : (value mx ex - value my ey == value pd ez)%Q).
  { rewrite Vx, Vy. unfold value. rewrite <- Ed.
    unfold Z.sub at 1. rewrite inject_Z_plus, inject_Z_opp. ring. }
  assert (Dd : 0 + 1 <= Z.pos (digits2_pos pd) <= 53 + (ex - ez)).
  { apply digits_range; [lia |]. split; [simpl; lia |].
    pose proof (mantissa_bounds mx Dx) as Bx.
    assert (0 < ay)
      by (unfold ay; apply Z.mul_pos_pos; [lia | apply Z.pow_pos_nonneg; unfold ez; lia]).
    assert (ax < 2 ^ 53 * 2 ^ (ex - ez)).
    { unfold ax. apply Z.mul_lt_mono_pos_r; [apply Z.pow_pos_nonneg; unfold ez; lia | lia]. }
    rewrite Z.pow_add_r by (unfold ez; lia). lia. }
  destruct (binary_round_value false pd ez) as (m' & e' & Hres & Hm & He' & Hv);
    [unfold ez in *; lia |].
  exists m', e'. split; [exact Hres |]. split; [exact Hm |].
  split; [unfold ez in *; lia |].
  rewrite Vd. exact Hv.
Qed.

(** *** The order *)

Lemma value_lt_exponent (m1 m2 : positive) (e1 e2 : Z) :
  Z.pos (digits2_pos m1) = 53 -> Z.pos (digits2_pos m2) = 53 ->
  e1 < e2 -> (value m1 e1 < value m2 e2)%Q.
Proof.
  intros D1 D2 He.
  pose proof (mantissa_bounds m1 D1) as B1. pose proof (mantissa_bounds m2 D2) as B2.
  unfold value.
  apply Qlt_le_trans with (inject_Z (2 ^ 53) * 2 ^ e1)%Q.
  - apply Qmult_lt_compat_r; [apply pow2_pos |]. rewrite <- Zlt_Qlt. lia.
  - apply Qle_trans with (inject_Z (2 ^ 52) * 2 ^ e2)%Q.
    + replace e2 with ((e2 - e1 - 1) + (1 + e1)) by lia.
      rewrite (pow2_add (e2 - e1 - 1)), (pow2_add 1 e1).
      assert (H1 : (1 <= 2 ^ (e2 - e1 - 1))%Q) by (apply Qpower_1_le; [lra | lia]).
      assert (H2 := pow2_pos e1).
      change (inject_Z (2 ^ 53)) with (9007199254740992 # 1)%Q.
      change (inject_Z (2 ^ 52)) with (4503599627370496 # 1)%Q.
      change (2 ^ 1)%Q with 2%Q. nra.
    + apply Qmult_le_compat_r; [| apply Qlt_le_weak, pow2_pos]. rewrite <- Zle_Qle. lia.
Qed.

Lemma value_lt_mantissa (m1 m2 : positive) (e : Z) :
  (m1 < m2)%positive -> (value m1 e < value m2 e)%Q.
Proof.
  intros H. unfold value. apply Qmult_lt_compat_r; [apply pow2_pos |].
  rewrite <- Zlt_Qlt. lia.
Qed.

(** Two positive normal numbers compare as their values do. *)
Lemma SFcompare_value (m1 m2 : positive) (e1 e2 : Z) :
  Z.pos (digits2_pos m1) = 53 -> Z.pos (digits2_pos m2) = 53 ->
  SFcompare (S754_finite false m1 e1) (S754_finite false m2 e2)
  = Some (value m1 e1 ?= value m2 e2)%Q.
Proof.
  intros D1 D2. cbn [SFcompare]. f_equal. symmetry.
  destruct (Z.compare_spec e1 e2) as [E | E | E].
  - subst e2. change (PosDef.Pos.compare_cont Eq m1 m2) with (Pos.compare m1 m2).
    destruct (Pos.compare_spec m1 m2) as [M | M | M].
    + subst m2. apply Qeq_alt. reflexivity.
    + apply Qlt_alt. now apply value_lt_mantissa.
    + apply Qgt_alt. now apply value_lt_mantissa.
  - apply Qlt_alt. now apply value_lt_exponent.
  - apply Qgt_alt. now apply value_lt_exponent.
Qed.

Lemma SFltb_value (m1 m2 : positive) (e1 e2 : Z) :
  Z.pos (digits2_pos m1) = 53 -> Z.pos (digits2_pos m2) = 53 ->
  SFltb (S754_finite false m1 e1) (S754_finite false m2 e2) = true
  <-> (value m1 e1 < value m2 e2)%Q.
Proof.
  intros D1 D2. unfold SFltb. rewrite SFcompare_value by assumption.
  rewrite Qlt_alt. destruct (value m1 e1 ?= value m2 e2)%Q; split; congruence.
Qed.

Lemma SFleb_value (m1 m2 : positive) (e1 e2 : Z) :
  Z.pos (digits2_pos m1) = 53 -> Z.pos (digits2_pos m2) = 53 ->
  SFleb (S754_finite false m1 e1) (S754_finite false m2 e2) = true
  <-> (value m1 e1 <= value m2 e2)%Q.
Proof.
  intros D1 D2. unfold SFleb. rewrite SFcompare_value by assumption.
  rewrite Qle_alt. destruct (value m1 e1 ?= value m2 e2)%Q; split; congruence.
Qed.

Lemma SFeqb_value (m1 m2 : positive) (e1 e2 : Z) :
  Z.pos (digits2_pos m1) = 53 -> Z.pos (digits2_pos m2) = 53 ->
  SFeqb (S754_finite false m1 e1) (S754_finite false m2 e2) = true
  <-> (value m1 e1 == value m2 e2)%Q.
Proof.
  intros D1 D2. unfold SFeqb. rewrite SFcompare_value by assumption.
  rewrite Qeq_alt. destruct (value m1 e1 ?= value m2 e2)%Q; split; congruence.
Qed.

(** A finite number above the subnormal range has a mantissa of 53
    digits. *)
Lemma valid_normal (x : float) (s : bool) (m : positive) (e : Z) :
  Prim2SF x = S754_finite s m e -> -1074 < e ->
  Z.pos (digits2_pos m) = 53 /\ e <= 971.
Proof.
  intros Hx He. pose proof (Prim2SF_valid x) as V. rewrite Hx in V.
  cbn [valid_binary] in V. unfold bounded, canonical_mantissa in V.
  apply andb_prop in V. destruct V as [V1 V2].
  apply Z.eqb_eq in V1. apply Z.leb_le in V2.
  unfold fexp, emin, prec, emax in *. lia.
Qed.

(** Splits on every comparison of exponents and mantissas in sight. *)
Ltac order_cases :=
  repeat match goal with
         | |- context [Z.compare ?a ?b] => destruct (Z.compare_spec a b)
         | H : context [Z.compare ?a ?b] |- _ => destruct (Z.compare_spec a b)
         | |- context [PosDef.Pos.compare_cont Eq ?a ?b] =>
             change (PosDef.Pos.compare_cont Eq a b) with (Pos.compare a b);
             destruct (Pos.compare_spec a b)
         | H : context [PosDef.Pos.compare_cont Eq ?a ?b] |- _ =>
             change (PosDef.Pos.compare_cont Eq a b) with (Pos.compare a b) in H;
             destruct (Pos.compare_spec a b)
         end.

(** [<] followed by [<=] is [<], for all numbers: NaN is below and above
    nothing. *)
Lemma SFltb_leb_trans (a b c : spec_float) :
  SFltb a b = true -> SFleb b c = true -> SFltb a c = true.
Proof.
  unfold SFltb, SFleb, SFcompare.
  destruct a as [sa | sa | | sa ma ea], b as [sb | sb | | sb mb eb],
    c as [sc | sc | | sc mc ec];
    try destruct sa; try destruct sb; try destruct sc;
    try discriminate; try reflexivity;
    intros H1 H2;
    order_cases; subst; simpl in *; try discriminate; try reflexivity; try lia.
Qed.

Lemma ltb_leb_trans (x y z : float) :
  (x <? y)%float = true -> (y <=? z)%float = true -> (x <? z)%float = true.
Proof. rewrite !ltb_spec, leb_spec. apply SFltb_leb_trans. Qed.

End FloatFacts.

(* ===================================================================== *)
(** ** The evalscript: layers and opacity *)
(* ===================================================================== *)

Module BlendFacts.
Import JS JSFacts Evalscript.
Local Open Scope Q_scope.

Lemma blend_combine (layer1 layer2 : list number) (opacity1 opacity2 : number) :
  List.length layer1 = List.length layer2 ->
  blend layer1 layer2 opacity1 opacity2
  = map (fun p => (fst p / 100) * opacity1 + (snd p / 100) * opacity2)%js
        (combine layer1 layer2).
Proof.
  intros H. unfold blend.
  exact (map_index_combine (fun x y => (x / 100) * opacity1 + (y / 100) * opacity2)%js
           NaN layer1 layer2 [] H).
Qed.

Lemma hundred_nonzero : ~ 100 == 0.
Proof. intros H. discriminate H. Qed.

(** On finite layers and opacities, [blend] stays finite. *)
Lemma blend_Fin (layer1 layer2 : list Q) (opacity1 opacity2 : Q) :
  List.length layer1 = List.length layer2 ->
  blend (map Fin layer1) (map Fin layer2) opacity1 opacity2
  = map Fin (map (fun p => fst p / 100 * opacity1 + snd p / 100 * opacity2)
               (combine layer1 layer2)).
Proof.
  intros H. rewrite blend_combine by (now rewrite !length_map).
  revert layer2 H.
  induction layer1 as [| x l1 IH]; intros [| y l2] H;
    cbn [map combine fst snd List.length] in *; try discriminate.
  - reflexivity.
  - rewrite !(div_Fin _ 100 hundred_nonzero). rewrite !mul_Fin, add_Fin.
    f_equal. apply IH. now injection H.
Qed.

End BlendFacts.

(* ===================================================================== *)
(** ** The evalscript in binary64: [blend] *)
(* ===================================================================== *)

Module Blend64Facts.
Import Floats Binary64 FloatFacts.
Local Open Scope float_scope.

(** On two layers of the same length [blend] works component by
    component. *)
Lemma blend_elementwise (layer1 layer2 : list float) (opacity1 opacity2 : float) :
  List.length layer1 = List.length layer2 ->
  blend layer1 layer2 opacity1 opacity2
  = map (fun p => (fst p / 100) * opacity1 + (snd p / 100) * opacity2)
        (combine layer1 layer2).
Proof.
  intros H. unfold blend.
  exact (JSFacts.map_index_combine
           (fun x y => (x / 100) * opacity1 + (y / 100) * opacity2)
           nan layer1 layer2 [] H).
Qed.

Lemma ordinary_cases (x : float) :
  ordinary x ->
  (exists s, Prim2SF x = S754_zero s)
  \/ (exists s m e, Prim2SF x = S754_finite s m e
                    /\ Z.pos (digits2_pos m) = 53%Z /\ (-952 <= e <= 848)%Z).
Proof.
  intros [H | H].
  - left. rewrite eqb_spec in H. change (Prim2SF 0) with (S754_zero false) in H.
    destruct (Prim2SF x) as [s | s | | s m e]; try discriminate.
    + now exists s.
    + destruct s; discriminate.
    + destruct s; discriminate.
  - right. apply andb_prop in H. destruct H as [H1 H2].
    rewrite leb_spec, abs_spec in H1, H2.
    change (Prim2SF 0x1p-900) with (S754_finite false 4503599627370496 (-952)) in H1.
    change (Prim2SF 0x1p900) with (S754_finite false 4503599627370496 848) in H2.
    destruct (Prim2SF x) as [s | s | | s m e] eqn:Ex; try discriminate.
    cbn [SFabs] in H1, H2. unfold SFleb, SFcompare in H1, H2.
    assert (He : (-952 <= e <= 848)%Z).
    { destruct (Z.compare_spec (-952) e), (Z.compare_spec e 848); try discriminate; lia. }
    destruct (valid_normal x s m e Ex ltac:(lia)) as [Dm _].
    exists s, m, e. repeat split; try assumption; lia.
Qed.

(** [(x / 100) * 100]: two roundings away from [x]. *)
Lemma there_and_back (x : float) :
  ordinary x ->
  (exists s, Prim2SF x = S754_zero s /\ Prim2SF (x / 100 * 100) = S754_zero s)
  \/ (exists s m e m' e',
         Prim2SF x = S754_finite s m e
         /\ Prim2SF (x / 100 * 100) = S754_finite s m' e'
         /\ (value m e * (1 - 3 * eps) <= value m' e' <= value m e * (1 + 3 * eps))%Q).
Proof.
  intros Hx. destruct (ordinary_cases x Hx) as [[s Ex] | (s & m & e & Ex & Dm & He)].
  - left. exists s. split; [exact Ex |].
    rewrite mul_spec, div_spec, Ex.
    change (Prim2SF 100) with (S754_finite false 7036874417766400 (-46)).
    destruct s; reflexivity.
  - right.
    assert (Dc : Z.pos (digits2_pos 7036874417766400) = 53%Z) by reflexivity.
    assert (Ec : (value 7036874417766400 (-46) == 100)%Q) by reflexivity.
    destruct (SFdiv_normal s false m 7036874417766400 e (-46) Dm Dc ltac:(lia))
      as (m1 & e1 & R1 & D1 & X1 & V1).
    destruct (SFmul_normal (xorb s false) false m1 7036874417766400 e1 (-46)
                D1 Dc ltac:(lia))
      as (m2 & e2 & R2 & D2 & X2 & V2).
    exists s, m, e, m2, e2. split; [exact Ex |]. split.
    + rewrite mul_spec, div_spec, Ex.
      change (Prim2SF 100) with (S754_finite false 7036874417766400 (-46)).
      unfold SF64mul, SF64div. rewrite R1, R2. now rewrite !xorb_false_r.
    + rewrite Ec in V1, V2.
      assert (E : (value m e / 100 == value m e * (1 # 100))%Q)
        by (unfold Qdiv; reflexivity).
      rewrite E in V1.
      assert (Hp := value_pos m e).
      unfold eps in *.
      set (v := value m e) in *. set (v1 := value m1 e1) in *.
      set (v2 := value m2 e2) in *.
      clearbody v v1 v2. clear - V1 V2 Hp. split; nra.
Qed.

(** A layer at opacity 0 contributes a zero, if its component is an
    ordinary number. *)
Lemma hidden_component (y : float) :
  ordinary y -> exists s, Prim2SF (y / 100 * 0) = S754_zero s.
Proof.
  intros Hy. rewrite mul_spec, div_spec.
  change (Prim2SF 100) with (S754_finite false 7036874417766400 (-46)).
  change (Prim2SF 0) with (S754_zero false).
  destruct (ordinary_cases y Hy) as [[s Ey] | (s & m & e & Ey & Dm & He)]; rewrite Ey.
  - exists (xorb (xorb s false) false). reflexivity.
  - assert (Dc : Z.pos (digits2_pos 7036874417766400) = 53%Z) by reflexivity.
    destruct (SFdiv_normal s false m 7036874417766400 e (-46) Dm Dc ltac:(lia))
      as (m1 & e1 & R1 & _).
    unfold SF64div, SF64mul. rewrite R1. eexists. reflexivity.
Qed.

Lemma near_of_parts (r x : float) :
  ((exists s s', Prim2SF x = S754_zero s /\ Prim2SF r = S754_zero s')
   \/ (exists s m e m' e',
         Prim2SF x = S754_finite s m e
         /\ Prim2SF r = S754_finite s m' e'
         /\ (value m e * (1 - 3 * eps) <= value m' e' <= value m e * (1 + 3 * eps))%Q)) ->
  near r x.
Proof.
  intros [(s & s' & Ex & Er) | (s & m & e & m' & e' & Ex & Er & Hv)];
    unfold near, to_Q; rewrite Ex, Er; cbn [SF2Q].
  - exists 0%Q, 0%Q. repeat split. discriminate.
  - assert (Hp := value_pos m e).
    destruct s; eexists; eexists; (split; [reflexivity |]); (split; [reflexivity |]).
    + setoid_replace (- value m' e' - - value m e)%Q
        with (- (value m' e' - value m e))%Q by ring.
      rewrite Qabs_opp, (Qabs_opp (value m e)), (Qabs_pos (value m e)) by lra.
      apply Qabs_case; intros; lra.
    + rewrite (Qabs_pos (value m e)) by lra.
      apply Qabs_case; intros; lra.
Qed.

(** One component of [blend(layer1, layer2, 100, 0)]. *)
Lemma shows_first (x y : float) :
  ordinary x -> ordinary y -> near (x / 100 * 100 + y / 100 * 0) x.
Proof.
  intros Hx Hy. apply near_of_parts.
  destruct (hidden_component y Hy) as [sy Ey].
  rewrite add_spec, Ey. unfold SF64add.
  destruct (there_and_back x Hx) as [(s & Ex & Er) | (s & m & e & m' & e' & Ex & Er & Hv)];
    rewrite Er.
  - left. exists s. destruct s, sy; eexists; (split; [exact Ex | reflexivity]).
  - right. exists s, m, e, m', e'. split; [exact Ex |]. split; [reflexivity | exact Hv].
Qed.

(** One component of [blend(layer1, layer2, 0, 100)]. *)
Lemma shows_second (x y : float) :
  ordinary x -> ordinary y -> near (x / 100 * 0 + y / 100 * 100) y.
Proof.
  intros Hx Hy. apply near_of_parts.
  destruct (hidden_component x Hx) as [sx Ex].
  rewrite add_spec, Ex. unfold SF64add.
  destruct (there_and_back y Hy) as [(s & Ey & Er) | (s & m & e & m' & e' & Ey & Er & Hv)];
    rewrite Er.
  - left. exists s. destruct s, sx; eexists; (split; [exact Ey | reflexivity]).
  - right. exists s, m, e, m', e'. split; [exact Ey |]. split; [reflexivity | exact Hv].
Qed.




End Blend64Facts.

(* ===================================================================== *)
(** ** The evalscript in binary64: [getAlpha] *)
(* ===================================================================== *)

Module Alpha64Facts.
Import Floats Binary64 FloatFacts.
Local Open Scope float_scope.

(** [getAlpha] returns what the branch it ends in says. *)
Lemma getAlpha_by_branch (index min max : float) :
  getAlpha index min max
  = match getAlpha_branch index min max with
    | alpha_full => 100
    | alpha_zero => 0
    | alpha_one => 1
    | alpha_ramp => 100 * ((index - min / 2) / (max - min))
    end.
Proof.
  unfold getAlpha, getAlpha_branch.
  destruct (_ <? index); [reflexivity |].
  destruct (index <=? min); [reflexivity |].
  destruct (max <=? index); reflexivity.
Qed.

(** The branch returning [1] needs [index >= max] after [index] was found
    not to exceed the midpoint: impossible when the midpoint, as computed, is
    below [max]. *)
Lemma alpha_one_needs_high_midpoint (index min max : float) :
  (min + (max - min) / 2 <? max) = true ->
  getAlpha_branch index min max <> alpha_one.
Proof.
  intros Hmid. unfold getAlpha_branch.
  destruct (min + (max - min) / 2 <? index) eqn:H1; [discriminate |].
  destruct (index <=? min); [discriminate |].
  destruct (max <=? index) eqn:H3; [| discriminate].
  rewrite (ltb_leb_trans _ _ _ Hmid H3) in H1. discriminate.
Qed.

(** Between the sediment limit [tssMin] and the midpoint, the last
    branch of [getAlpha] stays between 34 and 85: the index is a normal
    number of exponent -56 or -55, and the subtraction, the division and the
    multiplication each move the exact result by one part in [2^52] at
    most. *)
Lemma ramp_range (index : float) :
  (index <=? tssMin) = false ->
  (tssMin + (tssMax - tssMin) / 2 <? index) = false ->
  is_nan index = false ->
  exists (m : positive) (e : Z),
    Prim2SF (100 * ((index - tssMin / 2) / (tssMax - tssMin))) = S754_finite false m e
    /\ Z.pos (digits2_pos m) = 53%Z
    /\ (34 <= value m e <= 85)%Q.
Proof.
  intros Hmin Hmid Hnan.
  rewrite leb_spec in Hmin. rewrite ltb_spec in Hmid.
  assert (Hn : Prim2SF index <> S754_nan).
  { intros E. unfold is_nan in Hnan. rewrite eqb_spec, E in Hnan. discriminate. }
  change (Prim2SF tssMin) with (S754_finite false 5404319552844595 (-56)) in Hmin.
  change (Prim2SF (tssMin + (tssMax - tssMin) / 2))
    with (S754_finite false 4683743612465316 (-55)) in Hmid.
  destruct (Prim2SF index) as [s | s | | s m e] eqn:Ex; try congruence.
  - destruct s; discriminate.
  - destruct s; discriminate.
  - destruct s; [discriminate |].
    assert (Hexp : (-56 <= e <= -55)%Z).
    { unfold SFleb, SFltb, SFcompare in Hmin, Hmid.
      destruct (Z.compare_spec e (-56)), (Z.compare_spec (-55) e); try discriminate; lia. }
    destruct (valid_normal index false m e Ex ltac:(lia)) as [Dm _].
    assert (Dmin : Z.pos (digits2_pos 5404319552844595) = 53%Z) by reflexivity.
    assert (Dmid : Z.pos (digits2_pos 4683743612465316) = 53%Z) by reflexivity.
    assert (Dd : Z.pos (digits2_pos 7926335344172073) = 53%Z) by reflexivity.
    assert (Dc : Z.pos (digits2_pos 7036874417766400) = 53%Z) by reflexivity.
    assert (Vlo : (value 5404319552844595 (-56) < value m e)%Q).
    { apply Qnot_le_lt. intros H. apply (SFleb_value _ _ _ _ Dm Dmin) in H. congruence. }
    assert (Vhi : (value m e <= value 4683743612465316 (-55))%Q).
    { apply Qnot_lt_le. intros H. apply (SFltb_value _ _ _ _ Dmid Dm) in H. congruence. }
    rewrite mul_spec, div_spec, sub_spec, Ex.
    change (Prim2SF (tssMin / 2)) with (S754_finite false 5404319552844595 (-57)).
    change (Prim2SF (tssMax - tssMin)) with (S754_finite false 7926335344172073 (-56)).
    change (Prim2SF 100) with (S754_finite false 7036874417766400 (-46)).
    unfold SF64mul, SF64div, SF64sub.
    assert (Eh : (value 5404319552844595 (-57)
                  == 5404319552844595 # 144115188075855872)%Q) by reflexivity.
    assert (Emin : (value 5404319552844595 (-56)
                    == 5404319552844595 # 72057594037927936)%Q) by reflexivity.
    assert (Emid : (value 4683743612465316 (-55)
                    == 4683743612465316 # 36028797018963968)%Q) by reflexivity.
    assert (Ed : (value 7926335344172073 (-56)
                  == 7926335344172073 # 72057594037927936)%Q) by reflexivity.
    assert (Ec : (value 7036874417766400 (-46) == 100)%Q) by reflexivity.
    rewrite Emin in Vlo. rewrite Emid in Vhi.
    destruct (SFsub_normal m 5404319552844595 e (-57) Dm Dmin ltac:(lia) ltac:(lia))
      as (m1 & e1 & R1 & D1 & X1 & V1).
    { rewrite Eh. lra. }
    rewrite R1.
    destruct (SFdiv_normal false false m1 7926335344172073 e1 (-56) D1 Dd ltac:(lia))
      as (m2 & e2 & R2 & D2 & X2 & V2).
    rewrite R2.
    destruct (SFmul_normal false false 7036874417766400 m2 (-46) e2 Dc D2 ltac:(lia))
      as (m3 & e3 & R3 & D3 & X3 & V3).
    cbn [xorb] in *. rewrite R3.
    exists m3, e3. split; [reflexivity |]. split; [exact D3 |].
    rewrite Eh in V1. rewrite Ec in V3.
    assert (Einv : (value m1 e1 / value 7926335344172073 (-56)
                    == value m1 e1 * (72057594037927936 # 7926335344172073))%Q).
    { rewrite Ed. unfold Qdiv. reflexivity. }
    rewrite Einv in V2.
    unfold eps in *.
    set (vi := value m e) in *. set (v1 := value m1 e1) in *.
    set (v2 := value m2 e2) in *. set (v3 := value m3 e3) in *.
    clearbody vi v1 v2 v3. clear - Vlo Vhi V1 V2 V3.
    split; lra.
Qed.

(** [getAlpha] at the sediment limits, for an index that is a number. *)
Lemma getAlpha_sediment (index : float) :
  is_nan index = false ->
  let r := getAlpha index tssMin tssMax in
  (0 <=? r) = true /\ (r <=? 100) = true
  /\ ((r =? 0) = true <-> (index <=? tssMin) = true)
  /\ ((r =? 100) = true <-> (tssMin + (tssMax - tssMin) / 2 <? index) = true)
  /\ ((index <=? tssMin) = false ->
      (tssMin + (tssMax - tssMin) / 2 <? index) = false ->
      r = 100 * ((index - tssMin / 2) / (tssMax - tssMin))).
Proof.
  intros Hnan r. subst r.
  pose proof (alpha_one_needs_high_midpoint index tssMin tssMax eq_refl) as Hone.
  rewrite getAlpha_by_branch. unfold getAlpha_branch in *.
  destruct (tssMin + (tssMax - tssMin) / 2 <? index) eqn:Hmid.
  - repeat split; try reflexivity; try discriminate.
    intros Hmin. pose proof (ltb_leb_trans _ _ _ Hmid Hmin) as H.
    vm_compute in H. discriminate.
  - destruct (index <=? tssMin) eqn:Hmin.
    + repeat split; try reflexivity; try discriminate.
    + destruct (tssMax <=? index) eqn:Hmax; [contradiction |].
      destruct (ramp_range index Hmin Hmid Hnan) as (m & e & Hr & Dm & Vlo & Vhi).
      set (r := 100 * ((index - tssMin / 2) / (tssMax - tssMin))) in *.
      assert (D100 : Z.pos (digits2_pos 7036874417766400) = 53%Z) by reflexivity.
      assert (E100 : (value 7036874417766400 (-46) == 100)%Q) by reflexivity.
      assert (R0 : (0 <=? r) = true) by (rewrite leb_spec, Hr; reflexivity).
      assert (R100 : (r <=? 100) = true).
      { rewrite leb_spec, Hr.
        change (Prim2SF 100) with (S754_finite false 7036874417766400 (-46)).
        apply (SFleb_value _ _ _ _ Dm D100). rewrite E100. lra. }
      assert (N0 : (r =? 0) = false) by (rewrite eqb_spec, Hr; reflexivity).
      assert (N100 : (r =? 100) = false).
      { rewrite eqb_spec, Hr.
        change (Prim2SF 100) with (S754_finite false 7036874417766400 (-46)).
        destruct (SFeqb _ _) eqn:E; [| reflexivity].
        apply (SFeqb_value _ _ _ _ Dm D100) in E. rewrite E100 in E. lra. }
      rewrite N0, N100. repeat split; try assumption; try discriminate; reflexivity.
Qed.

(** C9, as binary64 has it.  The midpoint of the notebook's sediment
    limits (0.075 and 0.185) is computed as the double 0.13.  With these
    limits [getAlpha] returns a value between 0 and 100 for every index that
    is a number: 0 exactly when the index is at most the minimum, 100 exactly
    when it exceeds the computed midpoint, and
    [100 * ((index - min/2) / (max - min))] otherwise; and no index, NaN
    included, reaches the branch that returns 1.  For other limits that
    branch is out of reach whenever the computed midpoint is below [max]. *)
Theorem getAlpha_range_and_branches_binary64 :
  tssMin + (tssMax - tssMin) / 2 = 0.13
  /\ (forall index : float,
        is_nan index = false ->
        let r := getAlpha index tssMin tssMax in
        (0 <=? r) = true /\ (r <=? 100) = true
        /\ ((r =? 0) = true <-> (index <=? tssMin) = true)
        /\ ((r =? 100) = true <-> (tssMin + (tssMax - tssMin) / 2 <? index) = true)
        /\ ((index <=? tssMin) = false ->
            (tssMin + (tssMax - tssMin) / 2 <? index) = false ->
            r = 100 * ((index - tssMin / 2) / (tssMax - tssMin))))
  /\ (forall index : float, getAlpha_branch index tssMin tssMax <> alpha_one)
  /\ (forall index min max : float,
        getAlpha index min max
        = match getAlpha_branch index min max with
          | alpha_full => 100
          | alpha_zero => 0
          | alpha_one => 1
          | alpha_ramp => 100 * ((index - min / 2) / (max - min))
          end
        /\ ((min + (max - min) / 2 <? max) = true ->
            getAlpha_branch index min max <> alpha_one)).
Proof.
  split; [reflexivity |]. split; [exact getAlpha_sediment |]. split.
  - intros index. now apply alpha_one_needs_high_midpoint.
  - intros index min max. split.
    + apply getAlpha_by_branch.
    + apply alpha_one_needs_high_midpoint.
Qed.

(** C9 at the index 0.1, on the ramp, and at 0.2, above the maximum. *)
Lemma getAlpha_range_and_branches_binary64_witness :
  is_nan 0.1 = false
  /\ ((0 <=? getAlpha 0.1 tssMin tssMax) = true
      /\ (getAlpha 0.1 tssMin tssMax <=? 100) = true)
  /\ (tssMin + (tssMax - tssMin) / 2 <? tssMax) = true
  /\ getAlpha_branch 0.2 tssMin tssMax <> alpha_one.
Proof.
  destruct getAlpha_range_and_branches_binary64 as (_ & Hrange & _ & Hbranch).
  split; [reflexivity |]. split.
  - destruct (Hrange 0.1 eq_refl) as (H0 & H100 & _). split; assumption.
  - split; [reflexivity |]. apply (Hbranch 0.2 tssMin tssMax). reflexivity.
Defined.

(** C9 as the claim words it fails in binary64: [min < max] does not keep
    the branch returning 1 out of reach.  Between a number and the next one
    the midpoint is computed as the larger of the two, across the whole
    range it overflows, and an infinite [max] is its own midpoint. *)
Lemma alpha_one_is_reachable :
  ((0.005 <? 0.005000000000000001) = true
   /\ getAlpha_branch 0.005000000000000001 0.005 0.005000000000000001 = alpha_one
   /\ getAlpha 0.005000000000000001 0.005 0.005000000000000001 = 1)
  /\ ((-1e308 <? 1e308) = true
      /\ getAlpha_branch 1e308 (-1e308) 1e308 = alpha_one
      /\ getAlpha 1e308 (-1e308) 1e308 = 1)
  /\ ((0 <? infinity) = true
      /\ getAlpha_branch infinity 0 infinity = alpha_one
      /\ getAlpha infinity 0 infinity = 1).
Proof. repeat split. Qed.

End Alpha64Facts.


Module MaskFacts.
Import JS JSFacts Evalscript.
Local Open Scope string_scope.
Local Open Scope Q_scope.

#[local] Arguments lt : simpl never.
#[local] Arguments gt : simpl never.
#[local] Arguments le : simpl never.
#[local] Arguments ge : simpl never.
#[local] Arguments add : simpl never.
#[local] Arguments sub : simpl never.
#[local] Arguments mul : simpl never.
#[local] Arguments div : simpl never.

Lemma isWater_call_true (params : Params.t) (indices : Indices.t) :
  isWater_call params indices = Some true.
Proof. reflexivity. Qed.

Lemma isPureWater_sample (s : Sample) :
  isPureWater (sample_obj s) = Some (hollstein_pure_water s).
Proof.
  unfold isPureWater, hollstein_pure_water. cbn.
  destruct (lt (B03 s) 0.319); [| reflexivity].
  destruct (lt (B8A s) 0.166); [| reflexivity].
  destruct (ge _ 0.027); reflexivity.
Qed.

Lemma ratio_above_one (b : Q) :
  gt ((b - 0.175) / (0.39 - 0.175))%js 1 = gt b 0.39.
Proof.
  assert (Hd : ~ 0.39 - 0.175 == 0) by (intros H; discriminate H).
  rewrite !sub_Fin, (div_Fin _ _ Hd).
  destruct (gt b 0.39) eqn:H.
  - apply gt_Fin. apply gt_Fin in H.
    setoid_replace ((b - 0.175) / (0.39 - 0.175)) with ((b - 0.175) * (1000 # 215)) by field.
    lra.
  - apply not_true_iff_false. apply not_true_iff_false in H.
    rewrite gt_Fin in *. intros H'. apply H.
    setoid_replace ((b - 0.175) / (0.39 - 0.175)) with ((b - 0.175) * (1000 # 215)) in H' by field.
    lra.
Qed.

Lemma ratio_above_zero (b : Q) :
  gt ((b - 0.175) / (0.39 - 0.175))%js 0 = gt b 0.175.
Proof.
  assert (Hd : ~ 0.39 - 0.175 == 0) by (intros H; discriminate H).
  rewrite !sub_Fin, (div_Fin _ _ Hd).
  destruct (gt b 0.175) eqn:H.
  - apply gt_Fin. apply gt_Fin in H.
    setoid_replace ((b - 0.175) / (0.39 - 0.175)) with ((b - 0.175) * (1000 # 215)) by field.
    lra.
  - apply not_true_iff_false. apply not_true_iff_false in H.
    rewrite gt_Fin in *. intros H'. apply H.
    setoid_replace ((b - 0.175) / (0.39 - 0.175)) with ((b - 0.175) * (1000 # 215)) in H' by field.
    lra.
Qed.

Lemma isCloud_sample (s : Sample) (limit : Q) :
  isCloud (sample_obj s) (Num limit) = Some (bcy_cloud s limit).
Proof.
  unfold isCloud, bcy_cloud. cbn.
  rewrite ratio_above_one, ratio_above_zero.
  destruct (gt (B02 s) 0.39); [reflexivity |].
  destruct (gt (B02 s) 0.175); reflexivity.
Qed.


Lemma loop_bound_of_nat (n : nat) : loop_bound (Num (of_nat n)) = Some n.
Proof.
  unfold loop_bound, of_nat. cbn [ToNumber bind Monad_option].
  now rewrite Qceiling_Z, Nat2Z.id.
Qed.

(** On an array, the loop of [isWater] runs once per element unless it
    breaks; the test for an empty array gives the same answer as no
    iteration at all. *)
Lemma isWater_array (sample available : val) (names : list val) (waterMax cloudMax : val) :
  isWater sample available (Arr names) waterMax cloudMax
  = isWater_loop (List.length names) 0 sample available (Arr names) waterMax cloudMax.
Proof.
  unfold isWater. cbn [get String.eqb Ascii.eqb Bool.eqb bind Monad_option].
  destruct names as [| x names]; [reflexivity |].
  rewrite loop_bound_of_nat.
  replace (strict_eq_number _ _) with false; [reflexivity |].
  symmetry. unfold strict_eq_number, eqn, cmp, of_nat.
  destruct (Qcompare_spec (inject_Z (Z.of_nat (List.length (x :: names)))) 0) as [E | E | E];
    try reflexivity.
  exfalso. unfold Qeq in E. cbn [Qnum Qden inject_Z List.length] in E. lia.
Qed.

#[local] Arguments isPureWater : simpl never.
#[local] Arguments isCloud : simpl never.

(** [isWater] given its five declared arguments, under the selection of
    [PARAMS]: the NDWI test and the Hollstein test, and nothing else;
    [cloudMax] may be any value. *)
Lemma isWater_ndwi_hol (s : Sample) (waterMax : Q) (cloudMax : val) :
  isWater (sample_obj s) (watermask_obj (getIndices s).(Indices.watermask))
          (strings ["ndwi"; "hol"]) (Num waterMax) cloudMax
  = Some (negb (ndwi_below s waterMax) && hollstein_pure_water s).
Proof.
  unfold strings. rewrite isWater_array. cbn.
  rewrite isPureWater_sample. unfold ndwi_below. cbn.
  destruct (lt _ waterMax); [reflexivity |].
  destruct (hollstein_pure_water s); reflexivity.
Qed.

(** With ['bcy'] selected as well, the cloud test is the third one. *)
Lemma isWater_ndwi_hol_bcy (s : Sample) (waterMax cloudMax : Q) :
  isWater (sample_obj s) (watermask_obj (getIndices s).(Indices.watermask))
          (strings ["ndwi"; "hol"; "bcy"]) (Num waterMax) (Num cloudMax)
  = Some (negb (ndwi_below s waterMax) && hollstein_pure_water s
          && negb (bcy_cloud s cloudMax)).
Proof.
  unfold strings. rewrite isWater_array. cbn.
  rewrite isPureWater_sample, isCloud_sample. unfold ndwi_below. cbn.
  destruct (lt _ waterMax); [reflexivity |].
  destruct (hollstein_pure_water s); [| reflexivity].
  destruct (bcy_cloud s cloudMax); reflexivity.
Qed.

End MaskFacts.

(* ===================================================================== *)
(** ** The evalscript: what a pixel evaluates to *)
(* ===================================================================== *)

Module PixelFacts.
Import JS JSFacts Evalscript MaskFacts.
Local Open Scope string_scope.
Local Open Scope Q_scope.

Section AnyColorBlend.

Variable colorBlend : number -> list number -> list (list number) -> list number.

Lemma getValue_PARAMS (s : Sample) :
  getValue colorBlend PARAMS s
  = Some (result_val (visualization colorBlend s)
            (Some (getIndices s).(Indices.chl).(mci))
            (Some (getIndices s).(Indices.tss).(b05))).
Proof. reflexivity. Qed.

Lemma evaluatePixel_PARAMS (s : Sample) :
  evaluatePixel colorBlend s
  = Some {| default := numbers (visualization colorBlend s);
            chlorophyllIndex := Arr [Num (getIndices s).(Indices.chl).(mci)];
            sedimentIndex := Arr [Num (getIndices s).(Indices.tss).(b05)] |}.
Proof. reflexivity. Qed.

End AnyColorBlend.

Lemma mci_Fin (s : Sample) :
  (getIndices s).(Indices.chl).(mci)
  = Fin (B05 s - ((0.74 - 0.705) / (0.74 - 0.665)) * B04 s
         - (1.0 - (0.74 - 0.705) / (0.74 - 0.665)) * B06 s).
Proof. reflexivity. Qed.

Lemma rlh_Fin (s : Sample) :
  (getIndices s).(Indices.chl).(rlh)
  = Fin (B05 s - B04 s
         - (B07 s - B04 s * ((0.705 - 0.665) * 1000.0)) / ((0.783 - 0.665) * 1000.0)).
Proof. reflexivity. Qed.


(** C3. On every sample for which [isWater], as [getValue] calls it, answers
    [true], the output [chlorophyllIndex] is the maximum chlorophyll index:
    B05 minus the value at 705 nm of the line through B04 (665 nm) and
    B06 (740 nm), whose two weights add up to one. *)
Theorem chlorophyllIndex_is_mci
  (colorBlend : number -> list number -> list (list number) -> list number)
  (s : Sample) :
  isWater_call PARAMS (getIndices s) = Some true ->
  exists (out : Output) (x : Q),
    evaluatePixel colorBlend s = Some out
    /\ chlorophyllIndex out = Arr [Num (Fin x)]
    /\ x == mci_formula s
    /\ (0.74 - 0.705) / (0.74 - 0.665) + (0.705 - 0.665) / (0.74 - 0.665) == 1.
Proof.
  intros _. eexists. eexists. split; [apply evaluatePixel_PARAMS |].
  split; [cbn [chlorophyllIndex]; rewrite mci_Fin; reflexivity |].
  split; [unfold mci_formula; field | reflexivity].
Qed.

(** C5. On every sample for which [isWater], as [getValue] calls it, answers
    [true], the output [sedimentIndex] is the value of band B05, untouched. *)
Theorem sedimentIndex_is_B05
  (colorBlend : number -> list number -> list (list number) -> list number)
  (s : Sample) :
  isWater_call PARAMS (getIndices s) = Some true ->
  exists out : Output,
    evaluatePixel colorBlend s = Some out
    /\ sedimentIndex out = Arr [Num (Fin (B05 s))].
Proof.
  intros _. eexists. split; [apply evaluatePixel_PARAMS | reflexivity].
Qed.

(** C3 on the lake pixel. *)
Lemma chlorophyllIndex_is_mci_witness :
  isWater_call PARAMS (getIndices lake) = Some true
  /\ exists (out : Output) (x : Q),
       evaluatePixel linear_ramp lake = Some out
       /\ chlorophyllIndex out = Arr [Num (Fin x)]
       /\ x == mci_formula lake
       /\ (0.74 - 0.705) / (0.74 - 0.665) + (0.705 - 0.665) / (0.74 - 0.665) == 1.
Proof.
  split; [reflexivity |].
  apply (chlorophyllIndex_is_mci linear_ramp lake). reflexivity.
Defined.

(** C5 on the lake pixel. *)
Lemma sedimentIndex_is_B05_witness :
  isWater_call PARAMS (getIndices lake) = Some true
  /\ exists out : Output,
       evaluatePixel linear_ramp lake = Some out
       /\ sedimentIndex out = Arr [Num (Fin (B05 lake))].
Proof.
  split; [reflexivity |].
  apply (sedimentIndex_is_B05 linear_ramp lake). reflexivity.
Defined.


(** [linear_ramp] answers with a colour of the palette's width. *)
Lemma mix_length (c0 c1 : list number) (t : number) :
  List.length (mix c0 c1 t) = List.length c0.
Proof. apply map_index_length. Qed.

Lemma ramp_from_length (n : nat) (value : number) :
  forall (limits : list number) (colors : list (list number)) (lo : number)
         (c_lo : list number),
    List.length c_lo = n ->
    Forall (fun c => List.length c = n) colors ->
    List.length (ramp_from value lo c_lo limits colors) = n.
Proof.
  induction limits as [| hi limits IH]; intros colors lo c_lo Hlo Hall.
  - exact Hlo.
  - destruct colors as [| c_hi colors]; [exact Hlo |].
    cbn [ramp_from]. inversion Hall as [| ? ? Hhi Hrest]; subst.
    destruct (le value hi).
    + now rewrite mix_length.
    + now apply IH.
Qed.

Lemma linear_ramp_returns_a_color : returns_a_color linear_ramp.
Proof.
  intros value limits colors n Hne Hlen Hall. unfold linear_ramp.
  destruct colors as [| c_lo colors]; [contradiction |].
  destruct limits as [| lo limits]; [discriminate Hlen |].
  inversion Hall as [| ? ? Hlo Hrest]; subst.
  destruct (le value lo); [reflexivity |].
  now apply ramp_from_length.
Qed.

Lemma tss_palette_width : Forall (fun c => List.length c = 3%nat) tss_palette.
Proof. repeat constructor. Qed.

(** C10. Under [PARAMS], with [getValue] called as [evaluatePixel] calls it,
    [getValue] returns for every sample the object with its three fields
    set, never the bare layer of its early returns; so [evaluatePixel]
    yields the three outputs declared in [setup]: three bands for
    [default], one number each for [chlorophyllIndex] and [sedimentIndex]. *)
Theorem evaluatePixel_fills_all_outputs
  (colorBlend : number -> list number -> list (list number) -> list number) :
  returns_a_color colorBlend ->
  forall s : Sample,
  exists (rgb : list number) (chl_index sed_index : Q),
    getValue colorBlend PARAMS s
    = Some (result_val rgb (Some (Fin chl_index)) (Some (Fin sed_index)))
    /\ (forall layer, getValue colorBlend PARAMS s <> Some (layer_val layer))
    /\ evaluatePixel colorBlend s
       = Some {| default := numbers rgb;
                 chlorophyllIndex := Arr [Num (Fin chl_index)];
                 sedimentIndex := Arr [Num (Fin sed_index)] |}
    /\ List.length rgb = 3%nat.
Proof.
  intros Hcolor s.
  exists (visualization colorBlend s). eexists. eexists.
  split; [rewrite getValue_PARAMS, mci_Fin; reflexivity |].
  split; [intros layer; rewrite getValue_PARAMS; discriminate |].
  split; [rewrite evaluatePixel_PARAMS, mci_Fin; reflexivity |].
  unfold visualization, blend. rewrite map_index_length.
  apply Hcolor; [discriminate | reflexivity | exact tss_palette_width].
Qed.

(** C10 on the lake pixel, with the linear ramp for [colorBlend]. *)
Lemma evaluatePixel_fills_all_outputs_witness :
  returns_a_color linear_ramp
  /\ exists (rgb : list number) (chl_index sed_index : Q),
       getValue linear_ramp PARAMS lake
       = Some (result_val rgb (Some (Fin chl_index)) (Some (Fin sed_index)))
       /\ (forall layer, getValue linear_ramp PARAMS lake <> Some (layer_val layer))
       /\ evaluatePixel linear_ramp lake
          = Some {| default := numbers rgb;
                    chlorophyllIndex := Arr [Num (Fin chl_index)];
                    sedimentIndex := Arr [Num (Fin sed_index)] |}
       /\ List.length rgb = 3%nat.
Proof.
  split; [exact linear_ramp_returns_a_color |].
  exact (evaluatePixel_fills_all_outputs linear_ramp linear_ramp_returns_a_color lake).
Defined.


(** C1, on the code.  The land pixel fails both water tests, and [isWater]
    given its five declared arguments says so; as [getValue] calls it,
    [isWater] answers [true] whatever the parameters and the sample,
    [getValue] goes on to the colour ramps, and the [default] output is not
    the background layer. *)
Theorem water_mask_skipped_on_land :
  ndwi_below land (Params.waterMax PARAMS) = true
  /\ hollstein_pure_water land = false
  /\ isWater (sample_obj land) (watermask_obj (getIndices land).(Indices.watermask))
             (strings (Params.watermaskIndices PARAMS))
             (Num (Params.waterMax PARAMS)) (Num (Params.cloudMax PARAMS))
     = Some false
  /\ (forall (params : Params.t) (indices : Indices.t),
        isWater_call params indices = Some true)
  /\ exists (out : Output) (layer : list number),
       evaluatePixel linear_ramp land = Some out
       /\ default out = numbers layer
       /\ ~ Forall2 same layer (getIndices land).(Indices.natural).
Proof.
  split; [vm_compute; reflexivity |]. split; [vm_compute; reflexivity |].
  split; [vm_compute; reflexivity |]. split; [exact isWater_call_true |].
  eexists. exists (visualization linear_ramp land).
  split; [apply evaluatePixel_PARAMS |]. split; [reflexivity |].
  remember (visualization linear_ramp land) as layer eqn:E.
  vm_compute in E. subst layer. cbn [getIndices Indices.natural].
  intros H. inversion H as [| x y l l' Hxy _]; subst.
  vm_compute in Hxy. discriminate Hxy.
Qed.

(** C4, on the code.  [rlh] scales B04 alone by the wavelength step and
    divides B07 by the whole span, so it is not the height of B05 over the
    line through B04 and B07: on the flat pixel that height is zero and
    [rlh] is 39/1180. *)
Theorem rlh_misses_line_height :
  (forall s : Sample,
      exists x : Q,
        (getIndices s).(Indices.chl).(rlh) = Fin x
        /\ x == B05 s - B04 s - (B07 s - 40 * B04 s) / 118)
  /\ rlh_formula flat == 0
  /\ exists x : Q,
       (getIndices flat).(Indices.chl).(rlh) = Fin x
       /\ x == 39 # 1180
       /\ ~ x == rlh_formula flat.
Proof.
  split; [| split].
  - intros s. eexists. split; [apply rlh_Fin |]. field.
  - reflexivity.
  - eexists. split; [apply rlh_Fin |]. split; [reflexivity |].
    intros H. discriminate H.
Qed.

Lemma Forall2_same_unique (l l1 l2 : list number) :
  Forall2 same l l1 -> Forall2 same l l2 -> Forall2 same l1 l2.
Proof.
  intros H1. revert l2.
  induction H1 as [| x y l l1 Hxy _ IH]; intros l2 H2; inversion H2; subst;
    constructor; [| now apply IH].
  eapply same_trans; [apply same_sym; exact Hxy | assumption].
Qed.

(** C2, refuted.  Whatever [colorBlend] is, the [default] output cannot be
    the background layer on every pixel the cloud test flags: the two bright
    pixels are flagged, get the same [default] output, and have different
    backgrounds. *)
Lemma cloud_pixels_not_masked :
  ~ exists colorBlend : number -> list number -> list (list number) -> list number,
      forall s : Sample,
        isCloud (sample_obj s) (Num (Params.cloudMax PARAMS)) = Some true ->
        exists (out : Output) (layer : list number),
          evaluatePixel colorBlend s = Some out
          /\ default out = numbers layer
          /\ Forall2 same layer (getIndices s).(Indices.natural).
Proof.
  intros [colorBlend H].
  destruct (H (bright 0.3) eq_refl) as (out1 & layer1 & E1 & D1 & S1).
  destruct (H (bright 0.2) eq_refl) as (out2 & layer2 & E2 & D2 & S2).
  rewrite evaluatePixel_PARAMS in E1, E2.
  injection E1 as <-. injection E2 as <-. cbn [default] in D1, D2.
  apply numbers_inj in D1. apply numbers_inj in D2. subst layer1 layer2.
  change (visualization colorBlend (bright 0.2))
    with (visualization colorBlend (bright 0.3)) in S2.
  pose proof (Forall2_same_unique _ _ _ S1 S2) as Hbad.
  cbn [getIndices Indices.natural] in Hbad.
  inversion Hbad as [| ? ? ? ? _ T]; subst.
  inversion T as [| ? ? ? ? X _]; subst.
  vm_compute in X. discriminate X.
Qed.


(** C2, as the script has it.  The Braaten-Cohen-Yang test of [isCloud] is
    the cloud test of the specification; [isWater], given its five declared
    arguments, leaves it out under the selection of [PARAMS] (the verdict is
    the NDWI test and the Hollstein test, whatever is passed for [cloudMax]),
    and applies it when ['bcy'] is selected too: a flagged pixel is then not
    water.  Under the selection of [PARAMS] some flagged pixels are water. *)
Theorem cloud_test_only_when_selected (s : Sample) (waterMax cloudMax : Q) :
  isCloud (sample_obj s) (Num cloudMax) = Some (bcy_cloud s cloudMax)
  /\ (forall c : val,
        isWater (sample_obj s) (watermask_obj (getIndices s).(Indices.watermask))
                (strings (Params.watermaskIndices PARAMS)) (Num waterMax) c
        = Some (negb (ndwi_below s waterMax) && hollstein_pure_water s))
  /\ (bcy_cloud s cloudMax = true ->
      isWater (sample_obj s) (watermask_obj (getIndices s).(Indices.watermask))
              (strings (Params.watermaskIndices PARAMS ++ ["bcy"]))
              (Num waterMax) (Num cloudMax)
      = Some false)
  /\ (exists s0 : Sample,
        bcy_cloud s0 (Params.cloudMax PARAMS) = true
        /\ isWater (sample_obj s0) (watermask_obj (getIndices s0).(Indices.watermask))
                   (strings (Params.watermaskIndices PARAMS))
                   (Num (Params.waterMax PARAMS)) (Num (Params.cloudMax PARAMS))
           = Some true).
Proof.
  split; [apply isCloud_sample |]. split; [| split].
  - intros c. apply isWater_ndwi_hol.
  - intros Hcloud. cbn [PARAMS Params.watermaskIndices app].
    rewrite isWater_ndwi_hol_bcy, Hcloud. now rewrite andb_false_r.
  - exists (bright 0.3). split; vm_compute; reflexivity.
Qed.

(** C2 on a bright pixel, which the cloud test flags and both water tests
    pass. *)
Lemma cloud_test_only_when_selected_witness :
  bcy_cloud (bright 0.3) 0.02 = true
  /\ (isCloud (sample_obj (bright 0.3)) (Num 0.02) = Some (bcy_cloud (bright 0.3) 0.02)
      /\ (forall c : val,
            isWater (sample_obj (bright 0.3))
                    (watermask_obj (getIndices (bright 0.3)).(Indices.watermask))
                    (strings (Params.watermaskIndices PARAMS)) (Num 0) c
            = Some (negb (ndwi_below (bright 0.3) 0) && hollstein_pure_water (bright 0.3)))
      /\ isWater (sample_obj (bright 0.3))
                 (watermask_obj (getIndices (bright 0.3)).(Indices.watermask))
                 (strings (Params.watermaskIndices PARAMS ++ ["bcy"]))
                 (Num 0) (Num 0.02)
         = Some false).
Proof.
  split; [reflexivity |].
  destruct (cloud_test_only_when_selected (bright 0.3) 0 0.02) as (H1 & H2 & H3 & _).
  split; [exact H1 |]. split; [exact H2 |]. apply H3. reflexivity.
Defined.

End PixelFacts.

(* ===================================================================== *)
(** ** The notebook: the request and the download *)
(* ===================================================================== *)

Module NotebookFacts.
Import Notebook.
Local Open Scope string_scope.

Section Run.

Variable custom_script_text : string.
Variables client_id client_secret : string.
Variable transform : BBox -> CRS -> BBox.
Variable Raster : Type.
Variable SdkError : Type.
Variable get_data :
  Request -> bool -> SdkError + list (list (string * Raster)).

Local Notation "'Exn'" := (Notebook.Exn SdkError).
Local Notation "'Event'" := (Notebook.Event Raster).
Local Notation "'Globals'" := (Notebook.Globals Raster).
Local Notation "'NB'" := (Notebook.NB Raster SdkError).
Local Notation "'config0'" := (the_config client_id client_secret).
Local Notation "'request0'" :=
  (the_request custom_script_text client_id client_secret transform).
Local Notation "'built0'" :=
  (built custom_script_text client_id client_secret transform Raster).
Local Notation "'downloaded0'" :=
  (downloaded custom_script_text client_id client_secret transform Raster).
Local Notation "'notebook0'" :=
  (notebook custom_script_text client_id client_secret transform Raster SdkError get_data).

(** *** How computations run *)

Lemma exec_ret {A : Type} (a : A) (log : list Event) :
  exec Raster SdkError (ret a) log = (inr a, log).
Proof. reflexivity. Qed.

Lemma exec_raise {A : Type} (e : Exn) (log : list Event) :
  exec Raster SdkError (raise e : NB A) log = (inl e, log).
Proof. reflexivity. Qed.

Lemma exec_emit (ev : Event) (log : list Event) :
  exec Raster SdkError (emit Raster SdkError ev) log = (inr tt, (log ++ [ev])%list).
Proof. reflexivity. Qed.

(** A raised exception ends the computation: what follows a [bind] runs
    only on a value. *)
Lemma exec_bind {A B : Type} (c : NB A) (k : A -> NB B) (log : list Event) :
  exec Raster SdkError (bind c k) log
  = match exec Raster SdkError c log with
    | (inl e, log') => (inl e, log')
    | (inr a, log') => exec Raster SdkError (k a) log'
    end.
Proof.
  unfold exec. cbn.
  destruct (runState (unEitherT c) log) as [[e | a] log']; reflexivity.
Qed.

Lemma exec_name {A : Type} (n : string) (x : A) (log : list Event) :
  exec Raster SdkError (name Raster SdkError n (Some x)) log = (inr x, log).
Proof. reflexivity. Qed.

Lemma get_data_calls_app (l1 l2 : list Event) :
  get_data_calls Raster (l1 ++ l2)
  = (get_data_calls Raster l1 ++ get_data_calls Raster l2)%list.
Proof. apply flat_map_app. Qed.

(** *** The cells *)

Lemma build_exec (log : list Event) :
  exec Raster SdkError
       (build custom_script_text client_id client_secret transform Raster SdkError) log
  = (inr built0, log).
Proof. reflexivity. Qed.

(** The download cell makes its one call and stops on what the SDK raised,
    or on an empty answer. *)
Lemma cell_download_exec (log : list Event) :
  exec Raster SdkError (cell_download Raster SdkError get_data built0) log
  = match get_data request0 true with
    | inl e => (inl (Raised SdkError e), (log ++ [GetData Raster request0 true])%list)
    | inr [] => (inl (IndexError SdkError), (log ++ [GetData Raster request0 true])%list)
    | inr (d :: _) => (inr (downloaded0 d), (log ++ [GetData Raster request0 true])%list)
    end.
Proof.
  unfold cell_download, call_get_data.
  rewrite exec_bind. cbn [built request_UWQV]. rewrite exec_name.
  rewrite !exec_bind, exec_emit.
  destruct (get_data request0 true) as [e | [| d rest]].
  - now rewrite exec_raise.
  - now rewrite exec_ret, exec_bind, exec_raise.
  - now rewrite exec_ret, exec_bind, exec_ret, exec_ret.
Qed.

(** Reading a key of the downloaded dictionary makes no call. *)
Lemma getitem_exec (d : list (string * Raster)) (key : string) (log : list Event) :
  exists r : Exn + Raster,
    exec Raster SdkError (getitem Raster SdkError d key) log = (r, log).
Proof.
  induction d as [| [k v] d IH]; cbn [getitem].
  - eexists. apply exec_raise.
  - destruct (String.eqb k key); [eexists; apply exec_ret | exact IH].
Qed.

(** The plotting cells leave the namespace as it is and call no
    [get_data]. *)
Lemma cell_plot_default_exec (d : list (string * Raster)) (log : list Event) :
  exists (r : Exn + Globals) (log' : list Event),
    exec Raster SdkError (cell_plot_default Raster SdkError (downloaded0 d)) log = (r, log')
    /\ get_data_calls Raster log' = get_data_calls Raster log
    /\ (forall g', r = inr g' -> g' = downloaded0 d).
Proof.
  unfold cell_plot_default. cbn [downloaded download_data].
  rewrite exec_bind, exec_name, exec_bind.
  destruct (getitem_exec d "default.tif" log) as [[e | img] ->].
  - do 2 eexists. split; [reflexivity |]. split; [reflexivity |].
    intros g' H; discriminate H.
  - rewrite exec_bind, exec_emit, exec_ret.
    do 2 eexists. split; [reflexivity |]. split.
    + rewrite get_data_calls_app. apply app_nil_r.
    + intros g' H. now injection H.
Qed.

Lemma cell_plot_indices_exec (d : list (string * Raster)) (log : list Event) :
  exists (r : Exn + Globals) (log' : list Event),
    exec Raster SdkError (cell_plot_indices Raster SdkError (downloaded0 d)) log = (r, log')
    /\ get_data_calls Raster log' = get_data_calls Raster log
    /\ (forall g', r = inr g' -> g' = downloaded0 d).
Proof.
  unfold cell_plot_indices. cbn [downloaded download_data].
  rewrite exec_bind, exec_name, exec_bind.
  destruct (getitem_exec d "chlorophyllIndex.tif" log) as [[e | chl] ->].
  - do 2 eexists. split; [reflexivity |]. split; [reflexivity |].
    intros g' H; discriminate H.
  - rewrite exec_bind.
    destruct (getitem_exec d "sedimentIndex.tif" log) as [[e | sed] ->].
    + do 2 eexists. split; [reflexivity |]. split; [reflexivity |].
      intros g' H; discriminate H.
    + rewrite exec_bind, exec_emit, exec_bind, exec_emit, exec_ret.
      do 2 eexists. split; [reflexivity |]. split.
      * rewrite !get_data_calls_app. cbn. now rewrite !app_nil_r.
      * intros g' H. now injection H.
Qed.

(** *** The whole notebook *)

(** Whatever the SDK answers, a run makes exactly one [get_data] call, on
    the request as built, and a run that reaches the end still holds that
    request and that configuration. *)
Lemma notebook_run :
  exists (r : Exn + Globals) (log : list Event),
    run Raster SdkError notebook0 = (r, log)
    /\ get_data_calls Raster log = [(request0, true)]
    /\ (forall g, r = inr g ->
        request_UWQV Raster g = Some request0
        /\ config Raster g = Some config0).
Proof.
  unfold run, notebook.
  rewrite exec_bind, build_exec, exec_bind, cell_download_exec.
  destruct (get_data request0 true) as [e | [| d rest]].
  - do 2 eexists. split; [reflexivity |]. split; [reflexivity |].
    intros g H; discriminate H.
  - do 2 eexists. split; [reflexivity |]. split; [reflexivity |].
    intros g H; discriminate H.
  - rewrite exec_bind.
    destruct (cell_plot_default_exec d ([] ++ [GetData Raster request0 true]))
      as (r1 & log1 & -> & C1 & G1).
    destruct r1 as [e | g1].
    + do 2 eexists. split; [reflexivity |]. split; [exact C1 |].
      intros g H; discriminate H.
    + rewrite (G1 g1 eq_refl).
      destruct (cell_plot_indices_exec d log1) as (r2 & log2 & -> & C2 & G2).
      do 2 eexists. split; [reflexivity |].
      split; [now rewrite C2, C1 |].
      intros g H. rewrite (G2 g H). split; reflexivity.
Qed.

(** An exception of the SDK ends the run as it was raised, after the one
    call that raised it. *)
Lemma notebook_run_raised (e : SdkError) :
  get_data request0 true = inl e ->
  run Raster SdkError notebook0
  = (inl (Raised SdkError e), [GetData Raster request0 true]).
Proof.
  intros H. unfold run, notebook.
  rewrite exec_bind, build_exec, exec_bind, cell_download_exec, H. reflexivity.
Qed.

End Run.

(** C7, refuted as worded.  No call of the constructor bundles exactly the
    six named arguments: [data_folder] is always among them. *)
Lemma request_names_data_folder_too :
  ~ exists (evalscript : string) (input_data : list InputData)
           (responses : list OutputResponse) (bbox : BBox) (resolution : Z * Z)
           (config : SHConfig) (data_folder : string),
      map fst (SentinelHubRequest evalscript input_data responses bbox resolution
                 config data_folder)
      = ["evalscript"; "input_data"; "responses"; "bbox"; "resolution"; "config"].
Proof.
  intros (evalscript & input_data & responses & bbox & resolution & config
          & data_folder & H).
  discriminate H.
Qed.

(** C7, as the notebook has it.  The request bundles the evalscript text,
    one input (the Sentinel-2 L2A collection, September 2023, least cloud
    coverage first), the three TIFF responses, the Taihu bounding box
    transformed to EPSG 3035, the resolution (100, 100), the configuration,
    and the data folder ["./data"].  The cells up to the request cell build it
    without calling the SDK, and whatever the SDK answers a run makes exactly
    one [get_data] call, on that request, and ends, if it ends normally,
    with the request and the configuration unchanged. *)
Theorem request_built_once_and_consumed
  (custom_script_text client_id client_secret : string)
  (transform : BBox -> CRS -> BBox) (Raster SdkError : Type)
  (get_data : Request -> bool -> SdkError + list (list (string * Raster))) :
  the_request custom_script_text client_id client_secret transform
  = [("evalscript", Text custom_script_text);
     ("input_data",
      Inputs [ {| data_collection :=
                    define_from SENTINEL2_L2A "s2l2a"
                      (sh_base_url (the_config client_id client_secret));
                  input_time_interval := ("2023-09-01", "2023-09-30");
                  mosaicking_order := LEAST_CC |} ]);
     ("responses",
      Responses [ {| identifier := "default"; response_format := TIFF |};
                  {| identifier := "chlorophyllIndex"; response_format := TIFF |};
                  {| identifier := "sedimentIndex"; response_format := TIFF |} ]);
     ("bbox",
      Box (transform
             {| coords := (119.7301, 30.919636, 120.684429, 31.661304)%Q;
                crs := WGS84 |}
             (EPSG 3035)));
     ("resolution", Size 100 100);
     ("config", Config (the_config client_id client_secret));
     ("data_folder", Text "./data")]
  /\ run Raster SdkError
         (build custom_script_text client_id client_secret transform Raster SdkError)
     = (inr (built custom_script_text client_id client_secret transform Raster), [])
  /\ request_UWQV Raster
       (built custom_script_text client_id client_secret transform Raster)
     = Some (the_request custom_script_text client_id client_secret transform)
  /\ exists (r : Exn SdkError + Globals Raster) (log : list (Event Raster)),
       run Raster SdkError
           (notebook custom_script_text client_id client_secret transform
              Raster SdkError get_data)
       = (r, log)
       /\ get_data_calls Raster log
          = [(the_request custom_script_text client_id client_secret transform, true)]
       /\ (forall g,
             r = inr g ->
             request_UWQV Raster g
             = Some (the_request custom_script_text client_id client_secret transform)
             /\ config Raster g = Some (the_config client_id client_secret)).
Proof.
  split; [reflexivity |]. split; [apply build_exec |]. split; [reflexivity |].
  apply notebook_run.
Qed.

(** C8. The notebook has no handler: an exception raised by [get_data] ends
    the run as it was raised, after the single call that raised it; nothing
    is retried and no later cell runs. *)
Theorem sdk_exception_propagates
  (custom_script_text client_id client_secret : string)
  (transform : BBox -> CRS -> BBox) (Raster SdkError : Type)
  (get_data : Request -> bool -> SdkError + list (list (string * Raster)))
  (e : SdkError) :
  get_data (the_request custom_script_text client_id client_secret transform) true
  = inl e ->
  run Raster SdkError
      (notebook custom_script_text client_id client_secret transform
         Raster SdkError get_data)
  = (inl (Raised SdkError e),
     [GetData Raster
        (the_request custom_script_text client_id client_secret transform) true]).
Proof. apply notebook_run_raised. Qed.

(** C8 with an SDK that is out of quota. *)
Lemma sdk_exception_propagates_witness :
  out_of_quota (the_request "//VERSION=3" "id" "secret" relabel) true
  = inl "quota exceeded"
  /\ run nat string
         (notebook "//VERSION=3" "id" "secret" relabel nat string out_of_quota)
     = (inl (Raised string "quota exceeded"),
        [GetData nat (the_request "//VERSION=3" "id" "secret" relabel) true]).
Proof.
  split; [reflexivity |].
  apply (sdk_exception_propagates "//VERSION=3" "id" "secret" relabel nat string
           out_of_quota "quota exceeded").
  reflexivity.
Defined.

(** C7 with an SDK that answers: the run ends normally after one
    [get_data] call and three plots, the request and the configuration as
    built. *)
Lemma request_built_once_and_consumed_witness :
  exists g : Globals nat,
    run nat string
        (notebook "//VERSION=3" "id" "secret" relabel nat string three_rasters)
    = (inr g, [GetData nat (the_request "//VERSION=3" "id" "secret" relabel) true;
               PlotImage nat 1%nat; Imshow nat 2%nat; Imshow nat 3%nat])
    /\ request_UWQV nat g = Some (the_request "//VERSION=3" "id" "secret" relabel)
    /\ config nat g = Some (the_config "id" "secret").
Proof.
  destruct (request_built_once_and_consumed "//VERSION=3" "id" "secret" relabel
              nat string three_rasters) as (_ & _ & _ & r & log & Hrun & _ & Hkeep).
  eexists. split; [vm_compute; reflexivity |].
  apply Hkeep. apply (f_equal fst) in Hrun. cbn [fst] in Hrun.
  rewrite <- Hrun. vm_compute. reflexivity.
Defined.

End NotebookFacts.

(* ===================================================================== *)
(** ** The evalscript: more on the water mask *)
(* ===================================================================== *)

Module SelectionFacts.
Import JS JSFacts Evalscript MaskFacts.
Local Open Scope string_scope.
Local Open Scope Q_scope.

#[local] Arguments lt : simpl never.
#[local] Arguments gt : simpl never.
#[local] Arguments le : simpl never.
#[local] Arguments ge : simpl never.
#[local] Arguments add : simpl never.
#[local] Arguments sub : simpl never.
#[local] Arguments mul : simpl never.
#[local] Arguments div : simpl never.
#[local] Arguments isPureWater : simpl never.
#[local] Arguments isCloud : simpl never.

(** One round of the loop on a selection of names, seen from any index. *)
Lemma isWater_loop_names (s : Sample) (waterMax cloudMax : Q) (names : list string) :
  forall pre : list string,
    isWater_loop (List.length names) (List.length pre)
      (sample_obj s) (watermask_obj (getIndices s).(Indices.watermask))
      (strings (pre ++ names)) (Num waterMax) (Num cloudMax)
    = Some (forallb (index_passes s waterMax cloudMax) names).
Proof.
  induction names as [| name names IH]; intros pre; [reflexivity |].
  cbn [List.length isWater_loop forallb].
  assert (Hat : at_index (strings (pre ++ name :: names)) (List.length pre)
                = Some (Str name)).
  { unfold strings, at_index. rewrite map_app. cbn [map].
    rewrite <- (length_map Str pre). now rewrite nth_middle. }
  rewrite Hat. specialize (IH (pre ++ [name])%list).
  rewrite <- app_assoc, length_app, Nat.add_comm in IH. cbn [app List.length Nat.add] in IH.
  unfold index_passes at 1.
  cbn [bind ret Monad_option and_then loose_eq_string].
  destruct (String.eqb name "ndwi") eqn:E1.
  - cbn. fold (ndwi_below s waterMax).
    destruct (ndwi_below s waterMax); [reflexivity |].
    apply String.eqb_eq in E1. subst name. cbn. exact IH.
  - destruct (String.eqb name "hol") eqn:E2.
    + cbn. rewrite isPureWater_sample. cbn.
      destruct (hollstein_pure_water s); [| reflexivity].
      apply String.eqb_eq in E2. subst name. cbn. exact IH.
    + destruct (String.eqb name "bcy") eqn:E3.
      * cbn. rewrite isCloud_sample. cbn.
        destruct (bcy_cloud s cloudMax); [reflexivity |]. exact IH.
      * cbn. exact IH.
Qed.

Lemma isWater_names (s : Sample) (waterMax cloudMax : Q) (names : list string) :
  isWater (sample_obj s) (watermask_obj (getIndices s).(Indices.watermask))
          (strings names) (Num waterMax) (Num cloudMax)
  = Some (forallb (index_passes s waterMax cloudMax) names).
Proof.
  unfold strings at 1. rewrite isWater_array, length_map.
  exact (isWater_loop_names s waterMax cloudMax names []).
Qed.

(** X1. Given its five declared arguments and any selection of names,
    [isWater] is the conjunction of the tests the selected names stand for:
    NDWI not below [waterMax] for ['ndwi'], the Hollstein test for ['hol'],
    no cloud for ['bcy'], and nothing for any other name. *)
Theorem isWater_is_conjunction_of_selected_tests
  (s : Sample) (waterMax cloudMax : Q) (names : list string) :
  isWater (sample_obj s) (watermask_obj (getIndices s).(Indices.watermask))
          (strings names) (Num waterMax) (Num cloudMax)
  = Some (forallb (index_passes s waterMax cloudMax) names).
Proof. apply isWater_names. Qed.

(** X2. The verdict of [isWater] depends on which names are selected, not
    on their order or repetition; and a selection that names none of
    ['ndwi'], ['hol'] and ['bcy'] masks nothing. *)
Theorem isWater_selection_as_a_set
  (s : Sample) (waterMax cloudMax : Q) (names names' : list string) :
  ((forall n : string, In n names <-> In n names') ->
   isWater (sample_obj s) (watermask_obj (getIndices s).(Indices.watermask))
           (strings names) (Num waterMax) (Num cloudMax)
   = isWater (sample_obj s) (watermask_obj (getIndices s).(Indices.watermask))
             (strings names') (Num waterMax) (Num cloudMax))
  /\ (~ In "ndwi" names -> ~ In "hol" names -> ~ In "bcy" names ->
      isWater (sample_obj s) (watermask_obj (getIndices s).(Indices.watermask))
              (strings names) (Num waterMax) (Num cloudMax)
      = Some true).
Proof.
  split.
  - intros Hsame. rewrite !isWater_names. f_equal.
    apply eq_true_iff_eq. rewrite !forallb_forall.
    split; intros H n Hn; apply H; now apply Hsame.
  - intros H1 H2 H3. rewrite isWater_names. f_equal.
    apply forallb_forall. intros n Hn. unfold index_passes.
    destruct (String.eqb_spec n "ndwi") as [-> | _]; [contradiction |].
    destruct (String.eqb_spec n "hol") as [-> | _]; [contradiction |].
    destruct (String.eqb_spec n "bcy") as [-> | _]; [contradiction | reflexivity].
Qed.

(** X2 on the land pixel: a reordered, repeated selection, and a misspelt
    one. *)
Lemma isWater_selection_as_a_set_witness :
  (forall n : string, In n ["ndwi"; "hol"] <-> In n ["hol"; "ndwi"; "hol"])
  /\ ~ In "ndwi" ["NDWI"] /\ ~ In "hol" ["NDWI"] /\ ~ In "bcy" ["NDWI"]
  /\ isWater (sample_obj land) (watermask_obj (getIndices land).(Indices.watermask))
             (strings ["ndwi"; "hol"]) (Num 0) (Num 0.02)
     = isWater (sample_obj land) (watermask_obj (getIndices land).(Indices.watermask))
               (strings ["hol"; "ndwi"; "hol"]) (Num 0) (Num 0.02)
  /\ isWater (sample_obj land) (watermask_obj (getIndices land).(Indices.watermask))
             (strings ["NDWI"]) (Num 0) (Num 0.02)
     = Some true.
Proof.
  assert (Hset : forall n : string, In n ["ndwi"; "hol"] <-> In n ["hol"; "ndwi"; "hol"])
    by (intros n; cbn; tauto).
  assert (Hno : forall x : string, x <> "NDWI" -> ~ In x ["NDWI"])
    by (intros x Hx [H | []]; congruence).
  assert (H1 : ~ In "ndwi" ["NDWI"]) by (apply Hno; discriminate).
  assert (H2 : ~ In "hol" ["NDWI"]) by (apply Hno; discriminate).
  assert (H3 : ~ In "bcy" ["NDWI"]) by (apply Hno; discriminate).
  split; [exact Hset |]. split; [exact H1 |]. split; [exact H2 |]. split; [exact H3 |].
  split.
  - exact (proj1 (isWater_selection_as_a_set land 0 0.02 _ _) Hset).
  - exact (proj2 (isWater_selection_as_a_set land 0 0.02 ["NDWI"] []) H1 H2 H3).
Defined.

(** X3. On an object that lacks the bands they read, the Hollstein test and
    the cloud test answer [false] (the missing band reads as NaN), whatever
    the cloud limit; on [undefined] they throw. *)
Theorem tests_on_missing_bands (fields : list (string * val)) (limit : val) :
  (lookup fields "B03" = Undefined -> isPureWater (Obj fields) = Some false)
  /\ (lookup fields "B02" = Undefined -> isCloud (Obj fields) limit = Some false)
  /\ isPureWater Undefined = None
  /\ isCloud Undefined limit = None.
Proof.
  split; [| split; [| split; reflexivity]].
  - intros H. unfold isPureWater, and_then, field, get.
    cbn [bind Monad_option]. rewrite H. reflexivity.
  - intros H. unfold isCloud, or_else, and_then, field, get.
    cbn [bind Monad_option]. rewrite H. reflexivity.
Qed.

(** X3 on the object [getValue] passes for the sample. *)
Lemma tests_on_missing_bands_witness :
  lookup [("ndwi", Num 0.6)] "B03" = Undefined
  /\ lookup [("ndwi", Num 0.6)] "B02" = Undefined
  /\ isPureWater (Obj [("ndwi", Num 0.6)]) = Some false
  /\ isCloud (Obj [("ndwi", Num 0.6)]) Undefined = Some false.
Proof.
  split; [reflexivity |]. split; [reflexivity |].
  split.
  - apply (proj1 (tests_on_missing_bands [("ndwi", Num 0.6)] Undefined)). reflexivity.
  - apply (proj1 (proj2 (tests_on_missing_bands [("ndwi", Num 0.6)] Undefined))).
    reflexivity.
Defined.

End SelectionFacts.

(* ===================================================================== *)
(** ** The evalscript: layers, colours and the background *)
(* ===================================================================== *)

Module LayerFacts.
Import JS JSFacts Evalscript BlendFacts.
Local Open Scope Q_scope.

Lemma map_index_nth_error {A B : Type} (f : A -> nat -> B) (l : list A) :
  forall k i : nat,
    nth_error (map_index f k l) i
    = option_map (fun x => f x (k + i)%nat) (nth_error l i).
Proof.
  induction l as [| x l IH]; intros k [| i]; cbn [map_index nth_error option_map];
    try reflexivity.
  - now rewrite Nat.add_0_r.
  - rewrite IH. now rewrite Nat.add_succ_comm.
Qed.

Lemma add_NaN_r (x : number) : add x NaN = NaN.
Proof. destruct x; reflexivity. Qed.

Lemma mul_NaN_l (x : number) : mul NaN x = NaN.
Proof. destruct x; reflexivity. Qed.

(** X6. [blend] follows its first layer: the result is as long as
    [layer1], whatever the second layer and the opacities, and where
    [layer2] is too short to have a component the result is NaN. *)
Theorem blend_follows_layer1 (layer1 layer2 : list number) (opacity1 opacity2 : number) :
  List.length (blend layer1 layer2 opacity1 opacity2) = List.length layer1
  /\ forall i : nat,
       (List.length layer2 <= i)%nat -> (i < List.length layer1)%nat ->
       nth_error (blend layer1 layer2 opacity1 opacity2) i = Some NaN.
Proof.
  split; [apply map_index_length |].
  intros i Hshort Hin. unfold blend. rewrite map_index_nth_error.
  destruct (nth_error layer1 i) as [x |] eqn:Hx.
  - cbn [option_map Nat.add]. rewrite (nth_overflow layer2 NaN Hshort).
    change (div NaN 100) with NaN. now rewrite mul_NaN_l, add_NaN_r.
  - apply nth_error_None in Hx. lia.
Qed.

(** X6 on a three-band layer over a two-band one. *)
Lemma blend_follows_layer1_witness :
  (List.length [Fin 0.5; Fin 0.25] <= 2)%nat
  /\ (2 < List.length [Fin 0.2; Fin 0.4; Fin 0.6])%nat
  /\ nth_error (blend [Fin 0.2; Fin 0.4; Fin 0.6] [Fin 0.5; Fin 0.25] 40 60) 2 = Some NaN.
Proof.
  split; [cbn; lia |]. split; [cbn; lia |].
  apply (blend_follows_layer1 [Fin 0.2; Fin 0.4; Fin 0.6] [Fin 0.5; Fin 0.25] 40 60);
    cbn; lia.
Defined.

(** A mix of two values in an interval, with weights that add up to one
    hundred, stays in the interval. *)
Lemma mix_in_interval (lo hi x y a : Q) :
  lo <= x <= hi -> lo <= y <= hi -> 0 <= a <= 100 ->
  lo <= x / 100 * a + y / 100 * (100 - a) <= hi.
Proof.
  intros Hx Hy Ha.
  assert (E : x / 100 * a + y / 100 * (100 - a)
              == (x * a + y * (100 - a)) * (1 # 100)) by field.
  rewrite E. split; nra.
Qed.

Lemma blend_in_interval (lo hi a : Q) (layer1 layer2 : list Q) :
  List.length layer1 = List.length layer2 ->
  Forall (fun x => lo <= x <= hi) layer1 ->
  Forall (fun y => lo <= y <= hi) layer2 ->
  0 <= a <= 100 ->
  exists out : list Q,
    blend (map Fin layer1) (map Fin layer2) a (100 - a)%js = map Fin out
    /\ List.length out = List.length layer1
    /\ Forall (fun z => lo <= z <= hi) out.
Proof.
  intros Hlen H1 H2 Ha. rewrite sub_Fin.
  eexists. split; [apply (blend_Fin layer1 layer2 a (100 - a) Hlen) |].
  split.
  - rewrite length_map, length_combine, <- Hlen. apply Nat.min_id.
  - revert layer2 Hlen H2.
    induction H1 as [| x l1 Hx _ IH]; intros [| y l2] Hlen H2;
      cbn [map combine List.length] in *; try discriminate; constructor.
    + inversion H2; subst. now apply mix_in_interval.
    + inversion H2; subst. apply IH; [now injection Hlen | assumption].
Qed.


(** *** Static colours and the background *)

Lemma static_component (x : Q) :
  0 <= x <= 255 -> div x 255 = Fin (x / 255) /\ 0 <= x / 255 <= 1.
Proof.
  intros Hx. split.
  - apply div_Fin. intros H; discriminate H.
  - assert (E : x / 255 == x * (1 # 255)) by field. rewrite E. lra.
Qed.

Lemma getStaticColor_unit (c : list number) :
  rgb_color c -> unit_layer (getStaticColor c).
Proof.
  intros (r & g & b & -> & Hr & Hg & Hb). unfold getStaticColor. cbn [nth].
  destruct (static_component r Hr) as [-> Br].
  destruct (static_component g Hg) as [-> Bg].
  destruct (static_component b Hb) as [-> Bb].
  exists [r / 255; g / 255; b / 255]. repeat split; try reflexivity.
  repeat constructor; tauto.
Qed.

(** X8. [getStaticColor] always answers with three components: a colour of
    three finite components between 0 and 255 becomes one between 0 and 1,
    and a component the array does not have becomes NaN. *)
Theorem getStaticColor_scales_to_unit (c : list number) :
  List.length (getStaticColor c) = 3%nat
  /\ (rgb_color c -> unit_layer (getStaticColor c))
  /\ (forall i : nat,
        (List.length c <= i)%nat -> (i < 3)%nat ->
        nth_error (getStaticColor c) i = Some NaN).
Proof.
  split; [reflexivity |]. split; [apply getStaticColor_unit |].
  intros i Hshort Hi. unfold getStaticColor.
  destruct i as [| [| [| i]]]; [| | | lia]; cbn [nth_error];
    rewrite (nth_overflow c NaN) by lia; reflexivity.
Qed.

(** X8 on yellow, and on an array of two components. *)
Lemma getStaticColor_scales_to_unit_witness :
  rgb_color [Fin 255; Fin 255; Fin 0]
  /\ unit_layer (getStaticColor [Fin 255; Fin 255; Fin 0])
  /\ (List.length [Fin 255; Fin 255] <= 2)%nat /\ (2 < 3)%nat
  /\ nth_error (getStaticColor [Fin 255; Fin 255]) 2 = Some NaN.
Proof.
  assert (H : rgb_color [Fin 255; Fin 255; Fin 0]).
  { exists 255, 255, 0. repeat split; discriminate. }
  split; [exact H |].
  split; [exact (proj1 (proj2 (getStaticColor_scales_to_unit _)) H) |].
  split; [cbn; lia |]. split; [lia |].
  apply (proj2 (proj2 (getStaticColor_scales_to_unit [Fin 255; Fin 255]))); cbn; lia.
Defined.


(** An opacity between 0 and 1 becomes a whole percentage between 0 and
    100. *)
Lemma percent_of_opacity (opacity : Q) :
  0 <= opacity <= 1 ->
  exists a : Q, parseInt (opacity * 100)%js = Fin a /\ 0 <= a <= 100.
Proof.
  intros [Hlo Hhi]. rewrite mul_Fin. unfold parseInt.
  assert (H0 : 0 <= opacity * 100) by lra.
  rewrite (proj2 (Qle_bool_iff 0 (opacity * 100)) H0).
  eexists. split; [reflexivity |]. split.
  - change 0 with (inject_Z 0). rewrite <- Zle_Qle.
    change 0%Z with (Qfloor 0). now apply Qfloor_resp_le.
  - pose proof (Qfloor_le (opacity * 100)). lra.
Qed.

Lemma unit_layer_length (layer : list number) :
  unit_layer layer -> List.length layer = 3%nat.
Proof. intros (out & -> & Hlen & _). now rewrite length_map. Qed.

Lemma blend_unit_layers (layer1 layer2 : list number) (a : Q) :
  unit_layer layer1 -> unit_layer layer2 -> 0 <= a <= 100 ->
  unit_layer (blend layer1 layer2 a (100 - a)%js).
Proof.
  intros (l1 & -> & Hlen1 & H1) (l2 & -> & Hlen2 & H2) Ha.
  destruct (blend_in_interval 0 1 a l1 l2) as (out & -> & Hlen & Hout);
    try assumption; [congruence |].
  exists out. repeat split; [congruence | assumption].
Qed.

Lemma static_layer_unit (background : Background) (naturalIndex : list number) :
  valid_background background -> unit_layer naturalIndex ->
  unit_layer (match background with
              | bg_default | bg_natural => naturalIndex
              | bg_black => [Fin 0; Fin 0; Fin 0]
              | bg_white => [Fin 1; Fin 1; Fin 1]
              | bg_rgb color => getStaticColor color
              end).
Proof.
  intros Hbg Hnat. destruct background; try assumption.
  - exists [0; 0; 0]. repeat split. repeat constructor; discriminate.
  - exists [1; 1; 1]. repeat split. repeat constructor; discriminate.
  - now apply getStaticColor_unit.
Qed.

(** X9. Given a natural-colour layer of three components between 0 and 1
    and an opacity between 0 and 1, [getBackground] answers with such a layer
    again, for every background setting whose custom colour, if any, has
    three components between 0 and 255. *)
Theorem getBackground_is_unit_layer
  (background : Background) (naturalIndex : list number) (opacity : Q) :
  valid_background background -> unit_layer naturalIndex -> 0 <= opacity <= 1 ->
  unit_layer (getBackground background naturalIndex opacity).
Proof.
  intros Hbg Hnat Hop.
  pose proof (static_layer_unit background naturalIndex Hbg Hnat) as Hstatic.
  destruct (percent_of_opacity opacity Hop) as (a & Ha & Hrange).
  unfold getBackground, getEval. rewrite Ha.
  destruct background; cbn [orb]; try exact Hnat;
    (destruct (eqn opacity 1); [exact Hstatic | now apply blend_unit_layers]).
Qed.


(** X9 on a custom yellow background at opacity 0.4. *)
Lemma getBackground_is_unit_layer_witness :
  valid_background (bg_rgb [Fin 255; Fin 255; Fin 0])
  /\ unit_layer [Fin 0.125; Fin 0.2; Fin 0.15]
  /\ 0 <= 0.4 <= 1
  /\ unit_layer (getBackground (bg_rgb [Fin 255; Fin 255; Fin 0])
                   [Fin 0.125; Fin 0.2; Fin 0.15] 0.4).
Proof.
  assert (Hbg : valid_background (bg_rgb [Fin 255; Fin 255; Fin 0])).
  { exists 255, 255, 0. repeat split; discriminate. }
  assert (Hnat : unit_layer [Fin 0.125; Fin 0.2; Fin 0.15]).
  { exists [0.125; 0.2; 0.15]. repeat split. repeat constructor; discriminate. }
  assert (Hop : 0 <= 0.4 <= 1) by (split; discriminate).
  split; [exact Hbg |]. split; [exact Hnat |]. split; [exact Hop |].
  exact (getBackground_is_unit_layer _ _ 0.4 Hbg Hnat Hop).
Defined.

(** X10. Where the background is not blended: a natural background is
    the natural-colour layer whatever the opacity, and a static background at
    opacity 1 is the static colour alone. *)
Theorem getBackground_without_blending (naturalIndex : list number) :
  (forall opacity : number,
      getBackground bg_default naturalIndex opacity = naturalIndex
      /\ getBackground bg_natural naturalIndex opacity = naturalIndex)
  /\ getBackground bg_black naturalIndex 1 = [Fin 0; Fin 0; Fin 0]
  /\ getBackground bg_white naturalIndex 1 = [Fin 1; Fin 1; Fin 1]
  /\ (forall color : list number,
        getBackground (bg_rgb color) naturalIndex 1 = getStaticColor color).
Proof.
  split; [intros opacity; split; reflexivity |].
  split; [reflexivity |]. split; [reflexivity |]. reflexivity.
Qed.

End LayerFacts.

(* ===================================================================== *)
(** ** The evalscript: indices and the value of a pixel *)
(* ===================================================================== *)

Module ValueFacts.
Import JS JSFacts Evalscript MaskFacts PixelFacts SelectionFacts.
Local Open Scope string_scope.
Local Open Scope Q_scope.

(** X12. NDWI of non-negative green and near-infrared reflectances that are
    not both zero is a finite number between -1 and 1. *)
Theorem ndwi_between_minus_one_and_one (s : Sample) :
  0 <= B03 s -> 0 <= B08 s -> 0 < B03 s + B08 s ->
  exists x : Q,
    (getIndices s).(Indices.watermask).(ndwi) = Fin x /\ -1 <= x <= 1.
Proof.
  intros H3 H8 Hsum. cbn [getIndices Indices.watermask ndwi].
  rewrite sub_Fin, add_Fin, div_Fin by lra.
  eexists. split; [reflexivity |].
  split.
  - apply Qle_shift_div_l; [exact Hsum | lra].
  - apply Qle_shift_div_r; [exact Hsum | lra].
Qed.

(** X12 on the lake pixel. *)
Lemma ndwi_between_minus_one_and_one_witness :
  0 <= B03 lake /\ 0 <= B08 lake /\ 0 < B03 lake + B08 lake
  /\ exists x : Q,
       (getIndices lake).(Indices.watermask).(ndwi) = Fin x /\ -1 <= x <= 1.
Proof.
  split; [discriminate |]. split; [discriminate |]. split; [reflexivity |].
  apply (ndwi_between_minus_one_and_one lake); discriminate || reflexivity.
Defined.


(** X13. Where green and near-infrared reflectance are both zero, NDWI is
    [0/0], that is NaN; NaN is below no [waterMax], so the NDWI test passes
    and [isWater] with ['ndwi'] selected counts the pixel as water. *)
Theorem ndwi_of_dark_pixel_is_NaN (s : Sample) (waterMax cloudMax : Q) :
  B03 s == 0 -> B08 s == 0 ->
  (getIndices s).(Indices.watermask).(ndwi) = NaN
  /\ ndwi_below s waterMax = false
  /\ isWater (sample_obj s) (watermask_obj (getIndices s).(Indices.watermask))
             (strings ["ndwi"]) (Num waterMax) (Num cloudMax)
     = Some true.
Proof.
  intros H3 H8.
  assert (Hnan : (getIndices s).(Indices.watermask).(ndwi) = NaN).
  { cbn [getIndices Indices.watermask ndwi]. rewrite sub_Fin, add_Fin. unfold div.
    assert (E1 : B03 s + B08 s == 0) by lra.
    assert (E2 : B03 s - B08 s == 0) by lra.
    apply Qeq_alt in E1, E2. now rewrite E1, E2. }
  assert (Hbelow : ndwi_below s waterMax = false).
  { unfold ndwi_below.
    change (div (sub (B03 s) (B08 s)) (add (B03 s) (B08 s)))
      with (getIndices s).(Indices.watermask).(ndwi).
    now rewrite Hnan. }
  split; [exact Hnan |]. split; [exact Hbelow |].
  rewrite isWater_names. cbn [forallb]. unfold index_passes. cbn [String.eqb].
  cbn. now rewrite Hbelow.
Qed.

(** X13 on a pixel with no signal in any band. *)
Lemma ndwi_of_dark_pixel_is_NaN_witness :
  B03 (rescale 0 0 lake) == 0 /\ B08 (rescale 0 0 lake) == 0
  /\ (getIndices (rescale 0 0 lake)).(Indices.watermask).(ndwi) = NaN
  /\ isWater (sample_obj (rescale 0 0 lake))
             (watermask_obj (getIndices (rescale 0 0 lake)).(Indices.watermask))
             (strings ["ndwi"]) (Num 0) (Num 0.02)
     = Some true.
Proof.
  split; [reflexivity |]. split; [reflexivity |].
  destruct (ndwi_of_dark_pixel_is_NaN (rescale 0 0 lake) 0 0.02) as (H1 & _ & H2);
    try reflexivity.
  split; [exact H1 | exact H2].
Defined.

(** *** [getValue] under other settings *)

Lemma getForeground_length (foreground : Foreground)
  (backgroundLayer naturalIndex : list number) (opacity : number) :
  foreground <> fg_default -> List.length naturalIndex = 3%nat ->
  List.length (getForeground foreground backgroundLayer naturalIndex opacity) = 3%nat.
Proof.
  intros Hfg Hnat. unfold getForeground, getEval, blend.
  destruct (eqn opacity 1); [| rewrite map_index_length];
    destruct foreground; try contradiction; try assumption; reflexivity.
Qed.

(** X14. With a foreground other than ['default'], [getValue] returns a bare
    array of three components instead of its object, so the three fields
    [evaluatePixel] reads from the result, [rgb_value], [chl_index] and
    [sed_index], are all [undefined]. *)
Theorem getValue_static_foreground_is_bare_array
  (colorBlend : number -> list number -> list (list number) -> list number)
  (params : Params.t) (s : Sample) :
  params.(Params.foreground) <> fg_default ->
  exists layer : list number,
    getValue colorBlend params s = Some (numbers layer)
    /\ List.length layer = 3%nat
    /\ get (numbers layer) "rgb_value" = Some Undefined
    /\ get (numbers layer) "chl_index" = Some Undefined
    /\ get (numbers layer) "sed_index" = Some Undefined.
Proof.
  intros Hfg.
  exists (getForeground params.(Params.foreground)
            (getBackground params.(Params.background) (getIndices s).(Indices.natural)
               params.(Params.backgroundOpacity))
            (getIndices s).(Indices.natural) params.(Params.foregroundOpacity)).
  split.
  - unfold getValue. rewrite isWater_call_true.
    cbn [bind ret Monad_option negb].
    destruct (Params.foreground params); [contradiction | |]; reflexivity.
  - split; [| repeat split].
    apply getForeground_length; [exact Hfg | reflexivity].
Qed.

(** X14 on the lake pixel, with the natural foreground. *)
Lemma getValue_static_foreground_is_bare_array_witness :
  natural_foreground.(Params.foreground) <> fg_default
  /\ exists layer : list number,
       getValue linear_ramp natural_foreground lake = Some (numbers layer)
       /\ List.length layer = 3%nat
       /\ get (numbers layer) "rgb_value" = Some Undefined
       /\ get (numbers layer) "chl_index" = Some Undefined
       /\ get (numbers layer) "sed_index" = Some Undefined.
Proof.
  split; [discriminate |].
  apply (getValue_static_foreground_is_bare_array linear_ramp natural_foreground lake).
  discriminate.
Defined.

(** X15. The watermask settings have no effect: [getValue] returns the same
    result whatever indices are selected and whatever [waterMax] and
    [cloudMax] are. *)
Theorem getValue_ignores_watermask_settings
  (colorBlend : number -> list number -> list (list number) -> list number)
  (params : Params.t) (s : Sample) (names : list string) (waterMax cloudMax : Q) :
  getValue colorBlend (with_watermask params names waterMax cloudMax) s
  = getValue colorBlend params s.
Proof.
  unfold getValue. rewrite !isWater_call_true. reflexivity.
Qed.

(** X16. Under [PARAMS] the three outputs depend on the bands B04, B05 and
    B06 only: two samples that agree on them evaluate alike, whatever their
    other seven bands. *)
Theorem evaluatePixel_reads_three_bands
  (colorBlend : number -> list number -> list (list number) -> list number)
  (s s' : Sample) :
  B04 s = B04 s' -> B05 s = B05 s' -> B06 s = B06 s' ->
  evaluatePixel colorBlend s = evaluatePixel colorBlend s'.
Proof.
  intros H4 H5 H6. rewrite !evaluatePixel_PARAMS.
  unfold visualization. cbn [getIndices Indices.chl Indices.tss mci b05].
  now rewrite H4, H5, H6.
Qed.

(** X16 on the lake pixel and the same pixel with a hundredfold blue band. *)
Lemma evaluatePixel_reads_three_bands_witness :
  evaluatePixel linear_ramp lake
  = evaluatePixel linear_ramp
      {| B02 := 6; B03 := B03 lake; B04 := B04 lake; B05 := B05 lake;
         B06 := B06 lake; B07 := B07 lake; B08 := B08 lake; B8A := B8A lake;
         B09 := B09 lake; B11 := B11 lake |}.
Proof.
  apply (evaluatePixel_reads_three_bands linear_ramp); reflexivity.
Defined.

End ValueFacts.

(* ===================================================================== *)
(** ** The notebook: how a run ends *)
(* ===================================================================== *)

Module OutcomeFacts.
Import Notebook NotebookFacts.
Local Open Scope string_scope.

Section Outcomes.

Variable custom_script_text : string.
Variables client_id client_secret : string.
Variable transform : BBox -> CRS -> BBox.
Variable Raster : Type.
Variable SdkError : Type.
Variable get_data :
  Request -> bool -> SdkError + list (list (string * Raster)).

Local Notation "'Exn'" := (Notebook.Exn SdkError).
Local Notation "'Event'" := (Notebook.Event Raster).
Local Notation "'request0'" :=
  (the_request custom_script_text client_id client_secret transform).
Local Notation "'downloaded0'" :=
  (downloaded custom_script_text client_id client_secret transform Raster).
Local Notation "'notebook0'" :=
  (notebook custom_script_text client_id client_secret transform Raster SdkError get_data).

(** Subscripting the dictionary raises [KeyError] exactly when the key is
    missing, and makes no call. *)
Lemma getitem_dict_get (d : list (string * Raster)) (key : string) (log : list Event) :
  exec Raster SdkError (getitem Raster SdkError d key) log
  = (match dict_get d key with
     | Some v => inr v
     | None => inl (KeyError SdkError key)
     end, log).
Proof.
  induction d as [| [k v] d IH]; cbn [getitem dict_get].
  - apply exec_raise.
  - destruct (String.eqb k key); [apply exec_ret | exact IH].
Qed.

(** The run, from the answer of the SDK on. *)
Lemma notebook_after_download (d : list (string * Raster))
  (rest : list (list (string * Raster))) :
  get_data request0 true = inr (d :: rest) ->
  run Raster SdkError notebook0
  = match exec Raster SdkError (cell_plot_default Raster SdkError (downloaded0 d))
            [GetData Raster request0 true] with
    | (inl e, log) => (inl e, log)
    | (inr g, log) => exec Raster SdkError (cell_plot_indices Raster SdkError g) log
    end.
Proof.
  intros H. unfold run, notebook.
  rewrite exec_bind, build_exec, exec_bind, cell_download_exec, H, exec_bind.
  reflexivity.
Qed.

Lemma plot_default_run (d : list (string * Raster)) (log : list Event) :
  exec Raster SdkError (cell_plot_default Raster SdkError (downloaded0 d)) log
  = match dict_get d "default.tif" with
    | Some img => (inr (downloaded0 d), (log ++ [PlotImage Raster img])%list)
    | None => (inl (KeyError SdkError "default.tif"), log)
    end.
Proof.
  unfold cell_plot_default. cbn [downloaded download_data].
  rewrite exec_bind, exec_name, exec_bind, getitem_dict_get.
  destruct (dict_get d "default.tif"); [| reflexivity].
  now rewrite exec_bind, exec_emit, exec_ret.
Qed.

Lemma plot_indices_run (d : list (string * Raster)) (log : list Event) :
  exec Raster SdkError (cell_plot_indices Raster SdkError (downloaded0 d)) log
  = match dict_get d "chlorophyllIndex.tif", dict_get d "sedimentIndex.tif" with
    | Some chl, Some sed =>
        (inr (downloaded0 d),
         ((log ++ [Imshow Raster chl]) ++ [Imshow Raster sed])%list)
    | None, _ => (inl (KeyError SdkError "chlorophyllIndex.tif"), log)
    | Some _, None => (inl (KeyError SdkError "sedimentIndex.tif"), log)
    end.
Proof.
  unfold cell_plot_indices. cbn [downloaded download_data].
  rewrite exec_bind, exec_name, exec_bind, getitem_dict_get.
  destruct (dict_get d "chlorophyllIndex.tif"); [| reflexivity].
  rewrite exec_bind, getitem_dict_get.
  destruct (dict_get d "sedimentIndex.tif"); [| reflexivity].
  now rewrite exec_bind, exec_emit, exec_bind, exec_emit, exec_ret.
Qed.

End Outcomes.

(** X18. When the SDK answers with at least one dictionary and the first
    one holds the three rasters, the run ends normally after one download and
    three plots, in that order; the other dictionaries of the answer are not
    looked at. *)
Theorem notebook_plots_the_three_rasters
  (custom_script_text client_id client_secret : string)
  (transform : BBox -> CRS -> BBox) (Raster SdkError : Type)
  (get_data : Request -> bool -> SdkError + list (list (string * Raster)))
  (d : list (string * Raster)) (rest : list (list (string * Raster)))
  (img chl sed : Raster) :
  get_data (the_request custom_script_text client_id client_secret transform) true
  = inr (d :: rest) ->
  dict_get d "default.tif" = Some img ->
  dict_get d "chlorophyllIndex.tif" = Some chl ->
  dict_get d "sedimentIndex.tif" = Some sed ->
  run Raster SdkError
      (notebook custom_script_text client_id client_secret transform
         Raster SdkError get_data)
  = (inr (downloaded custom_script_text client_id client_secret transform Raster d),
     [GetData Raster
        (the_request custom_script_text client_id client_secret transform) true;
      PlotImage Raster img; Imshow Raster chl; Imshow Raster sed]).
Proof.
  intros Hdata Himg Hchl Hsed.
  rewrite (notebook_after_download _ _ _ _ _ _ _ d rest Hdata).
  rewrite plot_default_run, Himg, plot_indices_run, Hchl, Hsed. reflexivity.
Qed.

(** X19. When the answer of the SDK lacks what a cell subscripts, the run
    ends there with Python's exception and later cells do not run: an empty
    answer raises [IndexError] right after the download; a first dictionary
    without ["default.tif"] raises [KeyError] before anything is plotted; one
    without either index raster raises [KeyError] after the first plot and
    before any of the two index plots. *)
Theorem notebook_stops_on_missing_data
  (custom_script_text client_id client_secret : string)
  (transform : BBox -> CRS -> BBox) (Raster SdkError : Type)
  (get_data : Request -> bool -> SdkError + list (list (string * Raster))) :
  (get_data (the_request custom_script_text client_id client_secret transform) true
   = inr [] ->
   run Raster SdkError
       (notebook custom_script_text client_id client_secret transform
          Raster SdkError get_data)
   = (inl (IndexError SdkError),
      [GetData Raster
         (the_request custom_script_text client_id client_secret transform) true]))
  /\ (forall d rest,
        get_data (the_request custom_script_text client_id client_secret transform) true
        = inr (d :: rest) ->
        dict_get d "default.tif" = None ->
        run Raster SdkError
            (notebook custom_script_text client_id client_secret transform
               Raster SdkError get_data)
        = (inl (KeyError SdkError "default.tif"),
           [GetData Raster
              (the_request custom_script_text client_id client_secret transform) true]))
  /\ (forall d rest img key,
        get_data (the_request custom_script_text client_id client_secret transform) true
        = inr (d :: rest) ->
        dict_get d "default.tif" = Some img ->
        (dict_get d "chlorophyllIndex.tif" = None /\ key = "chlorophyllIndex.tif"
         \/ dict_get d "chlorophyllIndex.tif" <> None
            /\ dict_get d "sedimentIndex.tif" = None /\ key = "sedimentIndex.tif") ->
        run Raster SdkError
            (notebook custom_script_text client_id client_secret transform
               Raster SdkError get_data)
        = (inl (KeyError SdkError key),
           [GetData Raster
              (the_request custom_script_text client_id client_secret transform) true;
            PlotImage Raster img])).
Proof.
  split; [| split].
  - intros H. unfold run, notebook.
    rewrite exec_bind, build_exec, exec_bind, cell_download_exec, H. reflexivity.
  - intros d rest Hdata Himg.
    rewrite (notebook_after_download _ _ _ _ _ _ _ d rest Hdata).
    now rewrite plot_default_run, Himg.
  - intros d rest img key Hdata Himg Hkey.
    rewrite (notebook_after_download _ _ _ _ _ _ _ d rest Hdata).
    rewrite plot_default_run, Himg, plot_indices_run.
    destruct Hkey as [[Hchl ->] | (Hchl & Hsed & ->)].
    + now rewrite Hchl.
    + destruct (dict_get d "chlorophyllIndex.tif"); [| contradiction].
      now rewrite Hsed.
Qed.

(** X18 with an SDK that answers with the three rasters. *)
Lemma notebook_plots_the_three_rasters_witness :
  three_rasters (the_request "//VERSION=3" "id" "secret" relabel) true
  = inr [[("default.tif", 1%nat); ("chlorophyllIndex.tif", 2%nat);
          ("sedimentIndex.tif", 3%nat)]]
  /\ run nat string
         (notebook "//VERSION=3" "id" "secret" relabel nat string three_rasters)
     = (inr (downloaded "//VERSION=3" "id" "secret" relabel nat
               [("default.tif", 1%nat); ("chlorophyllIndex.tif", 2%nat);
                ("sedimentIndex.tif", 3%nat)]),
        [GetData nat (the_request "//VERSION=3" "id" "secret" relabel) true;
         PlotImage nat 1%nat; Imshow nat 2%nat; Imshow nat 3%nat]).
Proof.
  split; [reflexivity |].
  apply (notebook_plots_the_three_rasters "//VERSION=3" "id" "secret" relabel nat string
           three_rasters _ [] 1%nat 2%nat 3%nat); reflexivity.
Defined.

(** X19 with an SDK that answers with no dictionary, and with one that
    answers with the default raster only. *)
Lemma notebook_stops_on_missing_data_witness :
  no_dictionary (the_request "//VERSION=3" "id" "secret" relabel) true = inr []
  /\ run nat string
         (notebook "//VERSION=3" "id" "secret" relabel nat string no_dictionary)
     = (inl (IndexError string),
        [GetData nat (the_request "//VERSION=3" "id" "secret" relabel) true])
  /\ dict_get [("default.tif", 1%nat)] "chlorophyllIndex.tif" = None
  /\ run nat string
         (notebook "//VERSION=3" "id" "secret" relabel nat string default_raster_only)
     = (inl (KeyError string "chlorophyllIndex.tif"),
        [GetData nat (the_request "//VERSION=3" "id" "secret" relabel) true;
         PlotImage nat 1%nat]).
Proof.
  split; [reflexivity |]. split.
  - apply (proj1 (notebook_stops_on_missing_data "//VERSION=3" "id" "secret" relabel
                    nat string no_dictionary)).
    reflexivity.
  - split; [reflexivity |].
    apply (proj2 (proj2 (notebook_stops_on_missing_data "//VERSION=3" "id" "secret"
                           relabel nat string default_raster_only))
             [("default.tif", 1%nat)] [] 1%nat "chlorophyllIndex.tif");
      [reflexivity | reflexivity | left; split; reflexivity].
Defined.

End OutcomeFacts.
